(** * E-Rate prospector: the paginated data collector

    A shallow embedding of [ERateDataCollector]
    (src/data_collection/fetch_erate_data.py) and the properties of its
    four operations: [fetch_data], [fetch_all_years], [get_summary_stats]
    and [save_data]; of [main], which chains three of them; and of two
    parts of geographic_analysis.py: [normalize_score] and the
    high-opportunity quadrant.

    Conventions of the embedding.
    - Python [int] is [Z]; an [Optional] argument is an [option].
    - A [dict] is an association list in insertion order.
    - Numbers held in a table are exact rationals ([Qc]); the rounding of
      float64 is not modelled.
    - Calls that only write to the log ([logger.info], [logger.error]) and
      the courtesy pause [time.sleep(0.5)] change no data and are left out.
    - The remote API, Python's [sorted], pandas' parser of numeric strings
      and its number formatter are parameters of the sections that use
      them: every theorem holds whatever they do. *)

From Stdlib Require Import ZArith List String Ascii Bool Lia.
From Stdlib Require Import DecimalString QArith Qcanon Permutation Sorted Lqa.
Import ListNotations.

Local Open Scope string_scope.
Local Open Scope Z_scope.
Local Open Scope list_scope.

(** ** Exceptions and results *)

(** The subclasses of [requests.exceptions.RequestException] that the
    collector can meet.  [JSONDecodeError] is one of them since
    requests 2.27. *)
Inductive request_exception : Type :=
| ConnectionError
| Timeout
| TooManyRedirects
| HTTPError (status_code : Z)
| JSONDecodeError.

Inductive os_error : Type :=
| FileNotFoundError (path : string)
| FileExistsError (path : string)
| NotADirectoryError (path : string)
| IsADirectoryError (path : string).

Inductive exn : Type :=
| RequestException (e : request_exception)
| TypeError
| OSError (e : os_error).

(** A call either returns a value or raises. *)
Inductive result (A : Type) : Type :=
| Ok (a : A)
| Raise (e : exn).

Arguments Ok {A} a.
Arguments Raise {A} e.

Definition is_ok {A : Type} (r : result A) : bool :=
  match r with Ok _ => true | Raise _ => false end.

(** ** Python basics *)

(** [str(n)] for an [int]. *)
Definition str_int (n : Z) : string := NilZero.string_of_int (Z.to_int n).

(** Truth value of an [Optional[int]]: [None] and [0] are false. *)
Definition truthy_int (x : option Z) : bool :=
  match x with
  | Some n => negb (n =? 0)
  | None => false
  end.

(** Truth value of an [Optional[str]]: [None] and [''] are false. *)
Definition truthy_str (x : option string) : bool :=
  match x with
  | Some s => negb (s =? "")%string
  | None => false
  end.

(** [sep.join(parts)] *)
Definition join (sep : string) (parts : list string) : string :=
  String.concat sep parts.

(** [d.get(key)] on a dict kept as an association list. *)
Fixpoint dict_get {V : Type} (key : string) (d : list (string * V)) : option V :=
  match d with
  | [] => None
  | (k, v) :: rest => if (k =? key)%string then Some v else dict_get key rest
  end.

(** [key in d] *)
Definition dict_has {V : Type} (key : string) (d : list (string * V)) : bool :=
  match dict_get key d with Some _ => true | None => false end.

(** [range(start, stop)] *)
Definition range (start stop : Z) : list Z :=
  map (fun i => start + Z.of_nat i) (seq 0 (Z.to_nat (stop - start))).

(** ** Tables *)

(** A value of a table: missing ([None], [NaN]), a number or a string. *)
Inductive cell : Type :=
| NA
| Num (q : Qc)
| Str (s : string).

(** One row as the API returns it: a JSON object, field name to value. *)
Definition record : Type := list (string * cell).

(** [pd.DataFrame]: the column labels in order, and one list of cells per
    row, aligned with the columns. *)
Record DataFrame : Type := mkDataFrame {
  columns : list string;
  rows : list (list cell)
}.

(** [len(df)] *)
Definition len (df : DataFrame) : Z := Z.of_nat (List.length (rows df)).

(** [df.empty]: true when either axis has length 0. *)
Definition empty (df : DataFrame) : bool :=
  match rows df, columns df with
  | [], _ => true
  | _, [] => true
  | _, _ => false
  end.

Definition mem (c : string) (cs : list string) : bool :=
  existsb (fun c' => (c' =? c)%string) cs.

(** Labels of [more] not yet in [seen] are appended, in their order. *)
Fixpoint add_labels (seen more : list string) : list string :=
  match more with
  | [] => seen
  | c :: rest => if mem c seen then add_labels seen rest
                 else add_labels (seen ++ [c]) rest
  end.

(** The union of several label lists, in order of first appearance. *)
Definition union_labels (ls : list (list string)) : list string :=
  fold_left add_labels ls [].

(** The value of field [c] in a record, [NA] when the record lacks it. *)
Definition field (r : record) (c : string) : cell :=
  match dict_get c r with Some v => v | None => NA end.

(** [pd.DataFrame(data)] for a list of dicts: the columns are the keys in
    order of first appearance, each row is filled with [NA] where the
    record has no such key. *)
Definition DataFrame_of_records (data : list record) : DataFrame :=
  let cols := union_labels (map (map fst) data) in
  {| columns := cols; rows := map (fun r => map (field r) cols) data |}.

(** One row of [df] read back as a record. *)
Definition row_record (cols : list string) (row : list cell) : record :=
  combine cols row.

(** [pd.concat(frames, ignore_index=True)]: outer join on the columns (union
    in order of first appearance), rows stacked in the order of the frames. *)
Definition pd_concat (frames : list DataFrame) : DataFrame :=
  let cols := union_labels (map columns frames) in
  {| columns := cols;
     rows := flat_map (fun df =>
               map (fun row => map (field (row_record (columns df) row)) cols)
                   (rows df)) frames |}.

(** ** The HTTP exchange *)

(** A value of the [params] dict of a request. *)
Inductive param : Type :=
| PInt (n : Z)
| PStr (s : string).

(** The query parameters of one GET to [base_url]. *)
Definition Params : Type := list (string * param).

(** What comes back from [session.get]: the status code and the body, which
    [response.json()] either parses to a list of records or rejects. *)
Record Response : Type := mkResponse {
  status_code_of : Z;
  body : option (list record)
}.

(** [session.get] either raises (no route, timeout, ...) or hands back a
    response. *)
Inductive http_outcome : Type :=
| Failed (e : request_exception)
| Responded (r : Response).

(** One request and what the API answered. *)
Definition Exchange : Type := (Params * http_outcome)%type.

(** The state threaded through the collector: every exchange so far, oldest
    first. *)
Definition World : Type := list Exchange.

(** [response.raise_for_status()]: [HTTPError] for a 4xx or 5xx status,
    nothing otherwise. *)
Definition raise_for_status (r : Response) : result unit :=
  if (400 <=? status_code_of r) && (status_code_of r <? 600)
  then Raise (RequestException (HTTPError (status_code_of r)))
  else Ok tt.

(** [response.json()] *)
Definition json (r : Response) : result (list record) :=
  match body r with
  | Some data => Ok data
  | None => Raise (RequestException JSONDecodeError)
  end.

(** The [where_clauses] list of [fetch_data]. *)
Definition where_clauses (funding_year : option Z)
    (state applicant_type : option string) : list string :=
  let where_clauses := [] in
  let where_clauses :=
    match funding_year with
    | Some y => if truthy_int funding_year
                then where_clauses ++ [("funding_year = " ++ str_int y)%string]
                else where_clauses
    | None => where_clauses
    end in
  let where_clauses :=
    match state with
    | Some s => if truthy_str state
                then where_clauses ++ [("state = '" ++ s ++ "'")%string]
                else where_clauses
    | None => where_clauses
    end in
  let where_clauses :=
    match applicant_type with
    | Some s => if truthy_str applicant_type
                then where_clauses ++ [("applicant_type = '" ++ s ++ "'")%string]
                else where_clauses
    | None => where_clauses
    end in
  where_clauses.

(** The [params] dict of [fetch_data], as it is when the request is sent. *)
Definition request_params (funding_year : option Z)
    (state applicant_type : option string) (limit offset : Z) : Params :=
  let params := [("$limit", PInt limit);
                 ("$offset", PInt offset);
                 ("$order", PStr "funding_year DESC")] in
  let where_clauses := where_clauses funding_year state applicant_type in
  match where_clauses with
  | [] => params
  | _ :: _ => params ++ [("$where", PStr (join " AND " where_clauses))]
  end.

(** What [fetch_data] makes of an outcome of [session.get]: the body of its
    [try].  The [except RequestException] handler re-raises what it caught,
    and any other exception passes it by, so every exception leaves
    [fetch_data] as it was raised. *)
Definition receive (out : http_outcome) : result DataFrame :=
  match out with
  | Failed e => Raise (RequestException e)
  | Responded response =>
      match raise_for_status response with
      | Raise e => Raise e
      | Ok _ =>
          match json response with
          | Raise e => Raise e
          | Ok data => Ok (DataFrame_of_records data)
          end
      end
  end.

Section Collector.

(** The remote API: its answer to a request may depend on every exchange
    before it. *)
Variable api : World -> Params -> http_outcome.

(** [self.session.get(self.base_url, params=params, timeout=30)] *)
Definition session_get (params : Params) (w : World) : http_outcome * World :=
  let out := api w params in (out, w ++ [(params, out)]).

(** [ERateDataCollector.fetch_data] *)
Definition fetch_data (funding_year : option Z)
    (state applicant_type : option string) (limit offset : Z) (w : World)
    : result DataFrame * World :=
  let params := request_params funding_year state applicant_type limit offset in
  let (out, w) := session_get params w in
  (receive out, w).

(** The [while True] loop of [fetch_all_years] for one [year], entered with
    [offset] and [all_data].  [fuel] bounds the number of iterations: [None]
    is a loop that has not ended after [fuel] pages. *)
Fixpoint fetch_year (fuel : nat) (year : Z) (state applicant_type : option string)
    (batch_size : Z) (offset : Z) (all_data : list DataFrame) (w : World)
    : option (result (list DataFrame)) * World :=
  match fuel with
  | O => (None, w)
  | S fuel =>
      match fetch_data (Some year) state applicant_type batch_size offset w with
      | (Raise e, w) => (Some (Raise e), w)
      | (Ok df_batch, w) =>
          if empty df_batch then (Some (Ok all_data), w)
          else
            let all_data := all_data ++ [df_batch] in
            if len df_batch <? batch_size then (Some (Ok all_data), w)
            else fetch_year fuel year state applicant_type batch_size
                            (offset + batch_size) all_data w
      end
  end.

(** The [for year in range(start_year, end_year + 1)] loop. *)
Fixpoint fetch_years (fuel : nat) (years : list Z) (state applicant_type : option string)
    (batch_size : Z) (all_data : list DataFrame) (w : World)
    : option (result (list DataFrame)) * World :=
  match years with
  | [] => (Some (Ok all_data), w)
  | year :: years =>
      match fetch_year fuel year state applicant_type batch_size 0 all_data w with
      | (Some (Ok all_data), w) =>
          fetch_years fuel years state applicant_type batch_size all_data w
      | (stopped, w) => (stopped, w)
      end
  end.

(** [ERateDataCollector.fetch_all_years] *)
Definition fetch_all_years (fuel : nat) (start_year end_year : Z)
    (state applicant_type : option string) (batch_size : Z) (w : World)
    : option (result DataFrame) * World :=
  let all_data := [] in
  match fetch_years fuel (range start_year (end_year + 1)) state applicant_type
                    batch_size all_data w with
  | (Some (Ok all_data), w) =>
      match all_data with
      | _ :: _ => (Some (Ok (pd_concat all_data)), w)
      | [] => (Some (Ok (DataFrame_of_records [])), w)
      end
  | (Some (Raise e), w) => (Some (Raise e), w)
  | (None, w) => (None, w)
  end.

End Collector.

(** ** Summary statistics *)

Definition cell_eqb (a b : cell) : bool :=
  match a, b with
  | NA, NA => true
  | Num p, Num q => Qc_eq_bool p q
  | Str s, Str t => (s =? t)%string
  | _, _ => false
  end.

Definition isna (v : cell) : bool :=
  match v with NA => true | _ => false end.

(** [df[c]]: the cells of column [c], top to bottom, for a label that
    occurs once among the columns.  For a repeated label pandas answers a
    frame, not a column; this reads the first column of that label, and the
    properties that depend on it ask for labels without repetition. *)
Definition column (c : string) (df : DataFrame) : list cell :=
  map (fun row => field (row_record (columns df) row) c) (rows df).

(** [series.unique()]: the distinct values in order of first appearance,
    the missing value among them when present. *)
Fixpoint unique_from (seen : list cell) (s : list cell) : list cell :=
  match s with
  | [] => seen
  | v :: rest => if existsb (cell_eqb v) seen then unique_from seen rest
                 else unique_from (seen ++ [v]) rest
  end.

Definition unique (s : list cell) : list cell := unique_from [] s.

(** [series.dropna()] *)
Definition dropna (s : list cell) : list cell :=
  filter (fun v => negb (isna v)) s.

(** [series.nunique()]: the number of distinct values, missing ones not
    counted. *)
Definition nunique (s : list cell) : Z :=
  Z.of_nat (List.length (unique (dropna s))).

(** Number of occurrences of [v] in [s]. *)
Definition occurrences (v : cell) (s : list cell) : Z :=
  Z.of_nat (List.length (filter (cell_eqb v) s)).

(** Insertion into a list kept by descending count, after its equals. *)
Fixpoint insert_by_count (e : cell * Z) (l : list (cell * Z)) : list (cell * Z) :=
  match l with
  | [] => [e]
  | e' :: rest => if snd e' <? snd e then e :: l
                  else e' :: insert_by_count e rest
  end.

(** [series.value_counts().to_dict()]: each distinct value that is not
    missing with its number of occurrences, most frequent first. *)
Definition value_counts (s : list cell) : list (cell * Z) :=
  fold_left (fun acc v => insert_by_count (v, occurrences v s) acc)
            (unique (dropna s)) [].

(** [series.sum()]: missing values are skipped. *)
Fixpoint series_sum (s : list cell) : Qc :=
  match s with
  | [] => Q2Qc 0
  | Num q :: rest => (q + series_sum rest)%Qc
  | _ :: rest => series_sum rest
  end.

(** [series.count()]: the number of values that are not missing. *)
Definition series_count (s : list cell) : nat := List.length (dropna s).

(** A value of the statistics dict. *)
Inductive stat : Type :=
| SInt (n : Z)
| SNum (q : Qc)
| SNaN
| SList (l : list cell)
| SDict (d : list (cell * Z)).

(** [series.mean()]: [NaN] when every value is missing. *)
Definition series_mean (s : list cell) : stat :=
  match series_count s with
  | O => SNaN
  | S n => SNum (series_sum s / Q2Qc (Z.of_nat (S n) # 1))%Qc
  end.

(** Writes [v] under label [c] in a row laid out by [cols]. *)
Fixpoint set_cell (cols : list string) (c : string) (v : cell) (row : list cell)
    : list cell :=
  match cols, row with
  | c' :: cols, x :: row =>
      if (c' =? c)%string then v :: row else x :: set_cell cols c v row
  | _, _ => row
  end.

(** [df[c] = values] for a column [c] that [df] already has: the cells of
    that column are overwritten in place, row by row. *)
Definition set_column (c : string) (values : list cell) (df : DataFrame) : DataFrame :=
  {| columns := columns df;
     rows := map (fun rv => set_cell (columns df) c (snd rv) (fst rv))
                 (combine (rows df) values) |}.

Definition Stats : Type := list (string * stat).

Section Summary.

(** Python's [sorted] on the values of a column; it raises [TypeError] on
    values that do not compare. *)
Variable sorted : list cell -> result (list cell).

(** pandas' reading of a string as a number, [None] when it is none. *)
Variable parse_number : string -> option Qc.

(** [pd.to_numeric(series, errors='coerce')] *)
Definition to_numeric (s : list cell) : list cell :=
  map (fun v => match v with
                | Str t => match parse_number t with
                           | Some q => Num q
                           | None => NA
                           end
                | _ => v
                end) s.

(** [ERateDataCollector.get_summary_stats].  The table is the caller's
    object: the second component is that table as the call leaves it. *)
Definition get_summary_stats (df : DataFrame) : result Stats * DataFrame :=
  if empty df then (Ok [], df)
  else
    match (if mem "funding_year" (columns df)
           then sorted (unique (column "funding_year" df))
           else Ok []) with
    | Raise e => (Raise e, df)
    | Ok funding_years =>
        let stats :=
          [("total_records", SInt (len df));
           ("funding_years", SList funding_years);
           ("states", SInt (if mem "state" (columns df)
                            then nunique (column "state" df) else 0));
           ("unique_entities", SInt (if mem "entity_name" (columns df)
                                     then nunique (column "entity_name" df) else 0));
           ("applicant_types", SDict (if mem "applicant_type" (columns df)
                                      then value_counts (column "applicant_type" df)
                                      else []))] in
        if mem "total_commitment" (columns df)
        then
          let df := set_column "total_commitment"
                      (to_numeric (column "total_commitment" df)) df in
          let stats := stats ++
            [("total_funding", SNum (series_sum (column "total_commitment" df)));
             ("avg_commitment", series_mean (column "total_commitment" df))] in
          (Ok stats, df)
        else (Ok stats, df)
    end.

End Summary.

(** ** Files *)

Definition sep : ascii := "/"%char.
Definition quote_char : ascii := ascii_of_nat 34.
Definition newline : string := String (ascii_of_nat 10) EmptyString.

(** ['/' in p] *)
Fixpoint has_sep (p : string) : bool :=
  match p with
  | EmptyString => false
  | String c rest => Ascii.eqb c sep || has_sep rest
  end.

(** [p == '/' * len(p)] *)
Fixpoint all_sep (p : string) : bool :=
  match p with
  | EmptyString => true
  | String c rest => Ascii.eqb c sep && all_sep rest
  end.

(** [p[:p.rfind('/') + 1]] *)
Fixpoint upto_last_sep (p : string) : string :=
  match p with
  | EmptyString => EmptyString
  | String c rest =>
      if has_sep rest then String c (upto_last_sep rest)
      else if Ascii.eqb c sep then String c EmptyString
      else EmptyString
  end.

(** [p.rstrip('/')] *)
Fixpoint rstrip_sep (p : string) : string :=
  match p with
  | EmptyString => EmptyString
  | String c rest =>
      match rstrip_sep rest with
      | EmptyString => if Ascii.eqb c sep then EmptyString else String c EmptyString
      | rest' => String c rest'
      end
  end.

(** [os.path.dirname] (posixpath). *)
Definition dirname (p : string) : string :=
  let head := upto_last_sep p in
  if negb (head =? "")%string && negb (all_sep head)
  then rstrip_sep head
  else head.

(** [p] is not empty and does not end in a separator. *)
Definition names_entry (p : string) : bool :=
  negb (p =? "")%string && (rstrip_sep p =? p)%string.

(** The directories named on the way to a path and the path itself,
    outermost first: for [a/b/c], the paths [a], [a/b] and [a/b/c].  [seen]
    is the part of the path already read. *)
Fixpoint path_chain (seen rest : string) : list string :=
  match rest with
  | EmptyString => if names_entry seen then [seen] else []
  | String c rest' =>
      (if Ascii.eqb c sep && names_entry seen then [seen] else [])
      ++ path_chain (seen ++ String c EmptyString)%string rest'
  end.

(** The part of the file system the collector touches: the directories that
    exist and the regular files with their contents, both under the names
    the program uses for them.  Names are compared as they are written: two
    spellings of one path ([a] and [./a], [a/b] and [a//b]) are two names
    here.  The root and [.] always are directories.  The properties below
    do not depend on the spelling: they are about [makedirs] asked for the
    empty name, about calls that write nothing, or they hold whatever
    [save_data] does. *)
Record FileSystem : Type := mkFileSystem {
  dirs : list string;
  files : list (string * string)
}.

Definition isdir (p : string) (fs : FileSystem) : bool :=
  negb (p =? "")%string && (all_sep p || (p =? ".")%string || mem p (dirs fs)).

Definition isfile (p : string) (fs : FileSystem) : bool :=
  dict_has p (files fs).

(** [os.makedirs(name, exist_ok=True)]: [FileNotFoundError] for the empty
    name, an error when a regular file is in the way, and otherwise every
    directory on the way to [name] exists afterwards. *)
Definition makedirs (name : string) (fs : FileSystem) : result unit * FileSystem :=
  if (name =? "")%string then (Raise (OSError (FileNotFoundError name)), fs)
  else
    let chain := path_chain "" name in
    match find (fun p => isfile p fs) chain with
    | Some p =>
        if (p =? rstrip_sep name)%string
        then (Raise (OSError (FileExistsError name)), fs)
        else (Raise (OSError (NotADirectoryError name)), fs)
    | None =>
        (Ok tt, {| dirs := add_labels (dirs fs) chain; files := files fs |})
    end.

(** [d[key] = v] on a dict kept as an association list. *)
Fixpoint dict_set {V : Type} (key : string) (v : V) (d : list (string * V))
    : list (string * V) :=
  match d with
  | [] => [(key, v)]
  | (k, v') :: rest => if (k =? key)%string then (k, v) :: rest
                       else (k, v') :: dict_set key v rest
  end.

(** Writing a whole file, as [open(path, 'w')] followed by the writes.  A
    name that ends in a separator is refused as a directory, whether it
    exists or not; a regular file on the way to the parent gives
    [NotADirectoryError] and a parent that does not exist
    [FileNotFoundError]. *)
Definition write_file (path content : string) (fs : FileSystem)
    : result unit * FileSystem :=
  if (path =? "")%string then (Raise (OSError (FileNotFoundError path)), fs)
  else if negb (rstrip_sep path =? path)%string || isdir path fs
  then (Raise (OSError (IsADirectoryError path)), fs)
  else if existsb (fun p => isfile p fs) (path_chain "" (dirname path))
  then (Raise (OSError (NotADirectoryError path)), fs)
  else if negb ((dirname path =? "")%string) && negb (isdir (dirname path) fs)
  then (Raise (OSError (FileNotFoundError path)), fs)
  else (Ok tt, {| dirs := dirs fs; files := dict_set path content (files fs) |}).

(** The field holds the delimiter, the quote character or a character of
    the line terminator, which is the line feed alone for pandas on
    POSIX. *)
Fixpoint needs_quoting (s : string) : bool :=
  match s with
  | EmptyString => false
  | String c rest =>
      Ascii.eqb c ","%char || Ascii.eqb c quote_char
      || Ascii.eqb c (ascii_of_nat 10)
      || needs_quoting rest
  end.

(** Every quote character written twice. *)
Fixpoint double_quotes (s : string) : string :=
  match s with
  | EmptyString => EmptyString
  | String c rest =>
      if Ascii.eqb c quote_char
      then String c (String c (double_quotes rest))
      else String c (double_quotes rest)
  end.

(** One field of a CSV line under [csv.QUOTE_MINIMAL]. *)
Definition csv_field (s : string) : string :=
  if needs_quoting s
  then (String quote_char (double_quotes s) ++ String quote_char EmptyString)%string
  else s.

Section Persist.

(** pandas' text for a number in a CSV file.  The text depends on the
    dtype of the column ([50000] in an int64 column, [50000.0] in a float64
    one), which the tables do not record: no property below rests on what
    this parameter answers. *)
Variable format_number : Qc -> string.

Definition csv_cell (v : cell) : string :=
  match v with
  | NA => ""
  | Num q => format_number q
  | Str s => csv_field s
  end.

(** One line of the file from its fields, each quoted where it has to be.
    A line that would be empty although it has a field, the line of a
    single empty field, is written as two quote characters. *)
Definition csv_line (fields : list string) : string :=
  match fields with
  | [EmptyString] => String quote_char (String quote_char EmptyString)
  | _ => join "," fields
  end.

(** The header row of [df.to_csv(..., index=False)]. *)
Definition csv_header (df : DataFrame) : string :=
  csv_line (map csv_field (columns df)).

(** The text [df.to_csv(..., index=False)] writes: the header row, then one
    line per row, no index column. *)
Definition csv_text (df : DataFrame) : string :=
  (csv_header df ++ newline
   ++ String.concat "" (map (fun row => csv_line (map csv_cell row) ++ newline) (rows df)))%string.

(** [df.to_csv(path, index=False)] *)
Definition to_csv (df : DataFrame) (path : string) (fs : FileSystem)
    : result unit * FileSystem :=
  write_file path (csv_text df) fs.

(** [ERateDataCollector.save_data] *)
Definition save_data (df : DataFrame) (output_path : string) (fs : FileSystem)
    : result unit * FileSystem :=
  match makedirs (dirname output_path) fs with
  | (Raise e, fs) => (Raise e, fs)
  | (Ok _, fs) => to_csv df output_path fs
  end.

End Persist.

(** ** The entry point *)

(** [os.getenv(key, default)], on the environment as a dict. *)
Definition getenv (environ : list (string * string)) (key default : string) : string :=
  match dict_get key environ with
  | Some v => v
  | None => default
  end.

(** [s.startswith('/')] *)
Definition starts_with_sep (s : string) : bool :=
  match s with
  | String c _ => Ascii.eqb c sep
  | EmptyString => false
  end.

(** [s.endswith('/')] *)
Fixpoint ends_with_sep (s : string) : bool :=
  match s with
  | EmptyString => false
  | String c EmptyString => Ascii.eqb c sep
  | String _ rest => ends_with_sep rest
  end.

(** [os.path.join(a, b)] (posixpath). *)
Definition path_join (a b : string) : string :=
  if starts_with_sep b then b
  else if (a =? "")%string || ends_with_sep a then (a ++ b)%string
  else (a ++ "/" ++ b)%string.

Section Main.

Variable api : World -> Params -> http_outcome.
Variable sorted : list cell -> result (list cell).
Variable parse_number : string -> option Qc.
Variable format_number : Qc -> string.

(** [main], with the environment as [load_dotenv] has left it.  The token
    read from [USAC_APP_TOKEN] only sets a header of the session, which an
    exchange does not record; the calls to [print] write to the terminal
    only. *)
Definition main (environ : list (string * string)) (w : World) (fs : FileSystem)
    : result unit * World * FileSystem :=
  match fetch_data api (Some 2024) (Some "CA") None 100 0 w with
  | (Raise e, w) => (Raise e, w, fs)
  | (Ok df, w) =>
      match get_summary_stats sorted parse_number df with
      | (Raise e, df) => (Raise e, w, fs)
      | (Ok stats, df) =>
          let output_dir := getenv environ "RAW_DATA_DIR" "./data/raw" in
          let output_path := path_join output_dir "erate_sample.csv" in
          let (saved, fs) := save_data format_number df output_path fs in
          (saved, w, fs)
      end
  end.

End Main.

(** ** The opportunity analysis (geographic_analysis.py) *)

(** A numeric column of a frame with its index: the label of each row and
    its value, [None] for NaN.  As in the tables, a float is an exact
    rational. *)
Definition Series : Type := list (Z * option Qc).

(** The values of a series that are not NaN. *)
Definition present (s : Series) : list Qc :=
  flat_map (fun e => match snd e with Some q => [q] | None => [] end) s.

Definition Qc_max (a b : Qc) : Qc := if Qclt_le_dec a b then b else a.
Definition Qc_min (a b : Qc) : Qc := if Qclt_le_dec b a then b else a.

(** [series.max()] and [series.min()]: NaN is skipped, and NaN is the
    answer when nothing is left. *)
Definition series_max (s : Series) : option Qc :=
  match present s with
  | [] => None
  | q :: qs => Some (fold_left Qc_max qs q)
  end.

Definition series_min (s : Series) : option Qc :=
  match present s with
  | [] => None
  | q :: qs => Some (fold_left Qc_min qs q)
  end.

Section Normalize.

(** The arithmetic of the second branch of [normalize_score] on one value,
    [(x - lo) / (hi - lo) * 100] for the minimum [lo] and the maximum [hi].
    pandas computes it in the dtype of the column, with the rounding of
    float64 or the wrap-around of int64; a series here records no dtype, so
    the result, a number or NaN, is a parameter. *)
Variable rescale : Qc -> Qc -> Qc -> option Qc.

(** [normalize_score].  The comparison [series.max() == series.min()] is
    exact on numbers and false when both are NaN; the arithmetic of the
    second branch then gives NaN everywhere.  The first branch builds a new
    series, whose index is 0, 1, 2, ... *)
Definition normalize_score (series : Series) : Series :=
  match series_max series, series_min series with
  | Some hi, Some lo =>
      if Qc_eq_bool hi lo
      then map (fun i => (Z.of_nat i, Some (Q2Qc 50))) (seq 0 (List.length series))
      else map (fun e => (fst e, match snd e with
                                 | Some x => rescale lo hi x
                                 | None => None
                                 end)) series
  | _, _ => map (fun e => (fst e, None)) series
  end.

End Normalize.

(** [series[label]] for a label of the index, NaN otherwise. *)
Fixpoint at_label (l : Z) (s : Series) : option Qc :=
  match s with
  | [] => None
  | (l', v) :: rest => if l' =? l then v else at_label l rest
  end.

Definition same_labels (a b : list Z) : bool :=
  if list_eq_dec Z.eq_dec a b then true else false.

(** [df[c] = series] seen from the frame whose index is [index]: the values
    of the new column, row by row.  A series with the index of the frame
    goes in as it is; any other is aligned on the labels, and a row whose
    label the series lacks gets NaN. *)
Definition assigned (index : list Z) (s : Series) : list (option Qc) :=
  if same_labels index (map fst s) then map snd s
  else map (fun l => at_label l s) index.

(** A row of [lib_capacity], the three columns taken from the IMLS table
    and renamed, with its index label.  [state_name] is [None] where the
    cell holds no string, so that [.str.upper()] gives NaN; the two
    numeric columns hold a number or NaN. *)
Record capacity_row : Type := mk_capacity_row {
  label : Z;
  state_name : option string;
  total_revenue_k : option Qc;
  library_count : option Qc
}.

(** A row of [opportunity_df] with all its columns. *)
Record opportunity_row : Type := mk_opportunity_row {
  of_state : capacity_row;
  nslp_rate : option Qc;
  capacity_score : option Qc;
  market_size_score : option Qc;
  opportunity_score : option Qc
}.

(** The column of a frame as a series. *)
Definition series_of {A : Type} (label : A -> Z) (f : A -> option Qc) (df : list A)
    : Series :=
  map (fun r => (label r, f r)) df.

(** [Series.median()]: the middle of the sorted values that are not NaN,
    the mean of the two middle ones when their number is even, NaN when
    there is none. *)
Fixpoint insert_Qc (x : Qc) (l : list Qc) : list Qc :=
  match l with
  | [] => [x]
  | y :: rest => if Qclt_le_dec y x then y :: insert_Qc x rest else x :: l
  end.

Definition sort_Qc (l : list Qc) : list Qc := fold_right insert_Qc [] l.

Definition median (s : Series) : option Qc :=
  let xs := sort_Qc (present s) in
  let n := List.length xs in
  match n with
  | O => None
  | _ =>
      if Nat.even n
      then Some ((nth (n / 2 - 1) xs (Q2Qc 0) + nth (n / 2) xs (Q2Qc 0)) / Q2Qc 2)%Qc
      else Some (nth (n / 2) xs (Q2Qc 0))
  end.

(** [value > median], false when either side is NaN. *)
Definition above (m v : option Qc) : bool :=
  match v, m with
  | Some x, Some m => if Qclt_le_dec m x then true else false
  | _, _ => false
  end.

(** Lines 175 to 182: the rows above both medians. *)
Definition high_opportunity (opportunity_df : list opportunity_row)
    : list opportunity_row :=
  let median_libs :=
    median (series_of (fun r => label (of_state r))
                      (fun r => library_count (of_state r)) opportunity_df) in
  let median_revenue :=
    median (series_of (fun r => label (of_state r))
                      (fun r => total_revenue_k (of_state r)) opportunity_df) in
  filter (fun r => above median_libs (library_count (of_state r))
                   && above median_revenue (total_revenue_k (of_state r)))
         opportunity_df.

(** * Notions used in the statements *)

(** ** Filters and failures *)

Definition is_some {A : Type} (x : option A) : bool :=
  match x with Some _ => true | None => false end.

(** The filter expression in the words of the specification: one
    [field = value] clause for each filter that is supplied, the year bare
    and the strings in single quotes. *)
Definition supplied_clauses (funding_year : option Z)
    (state applicant_type : option string) : list string :=
  match funding_year with
  | Some y => [("funding_year = " ++ str_int y)%string]
  | None => []
  end
  ++ match state with
     | Some s => [("state = '" ++ s ++ "'")%string]
     | None => []
     end
  ++ match applicant_type with
     | Some s => [("applicant_type = '" ++ s ++ "'")%string]
     | None => []
     end.

(** The [$where] parameter in the words of the specification: absent with no
    filter, the clauses joined by [ AND ] otherwise. *)
Definition supplied_where (funding_year : option Z)
    (state applicant_type : option string) : option param :=
  match supplied_clauses funding_year state applicant_type with
  | [] => None
  | clauses => Some (PStr (join " AND " clauses))
  end.

(** Every filter that is supplied has a true truth value: the year is not
    [0] and the strings are not empty. *)
Definition no_falsy_filter (funding_year : option Z)
    (state applicant_type : option string) : bool :=
  Bool.eqb (truthy_int funding_year) (is_some funding_year)
  && Bool.eqb (truthy_str state) (is_some state)
  && Bool.eqb (truthy_str applicant_type) (is_some applicant_type).

(** The call failed: [session.get] raised, or the response carries a 4xx or
    5xx status. *)
Definition failed_call (out : http_outcome) : bool :=
  match out with
  | Failed _ => true
  | Responded r => (400 <=? status_code_of r) && (status_code_of r <? 600)
  end.

(** ** Statistics *)

(** [vs] lists the distinct values of [s] that are not missing, each once. *)
Definition distinct_values (s vs : list cell) : Prop :=
  NoDup vs /\ forall v, In v vs <-> In v s /\ v <> NA.

(** The [funding_years] entry before it is stored: the sorted distinct
    years, or the empty list for a table without the column. *)
Definition funding_years_of (sorted : list cell -> result (list cell))
    (df : DataFrame) : result (list cell) :=
  if mem "funding_year" (columns df)
  then sorted (unique (column "funding_year" df))
  else Ok [].

(** ** Requests and pages of a collection *)

Section Notions.

Variables (state applicant_type : option string) (batch_size : Z).

(** The request [fetch_all_years] sends for [year] at [offset]. *)
Definition page_request (year offset : Z) : Params :=
  request_params (Some year) state applicant_type batch_size offset.

(** The answer is a page after which the loop of its year goes on: a frame
    that is not empty and has at least [batch_size] rows. *)
Definition full_page (out : http_outcome) : bool :=
  match receive out with
  | Ok df => negb (empty df) && (batch_size <=? len df)
  | Raise _ => false
  end.

(** The frame the loop appends to [all_data] for this answer, if any. *)
Definition kept_frame (out : http_outcome) : list DataFrame :=
  match receive out with
  | Ok df => if empty df then [] else [df]
  | Raise _ => []
  end.

Definition kept_frames (seg : list Exchange) : list DataFrame :=
  flat_map (fun ex => kept_frame (snd ex)) seg.

(** The requests of [n] successive pages of [year], the first at [offset]. *)
Definition page_requests (year offset : Z) (n : nat) : list Params :=
  map (fun k => page_request year (offset + Z.of_nat k * batch_size)) (seq 0 n).

(** How one run of the [while True] loop ends, given the exchanges [init]
    that the loop went on after and the exchanges [tail] it stopped at. *)
Definition loop_end (fuel : nat) (all_data : list DataFrame)
    (init tail : list Exchange) (res : option (result (list DataFrame))) : Prop :=
  match res with
  | None => tail = [] /\ List.length init = fuel
  | Some (Raise e) =>
      exists p out, tail = [(p, out)] /\ receive out = Raise e
  | Some (Ok all_data') =>
      exists p out df,
        tail = [(p, out)] /\ receive out = Ok df /\ full_page out = false
        /\ all_data' = all_data ++ kept_frames (init ++ tail)
  end.

(** The exchanges of one year, as the loop of that year leaves them: the
    requests of successive pages from offset 0, each but the last answered
    by a full page. *)
Definition year_segment (year : Z) (seg : list Exchange) : Prop :=
  map fst seg = page_requests year 0 (List.length seg)
  /\ Forall (fun ex => full_page (snd ex) = true) (removelast seg).

(** The exchanges of a year whose loop ended by [break]: the last answer is
    a frame that is empty or has fewer than [batch_size] rows. *)
Definition closed_segment (seg : list Exchange) : Prop :=
  exists init p out df,
    seg = init ++ [(p, out)] /\ receive out = Ok df /\ full_page out = false.

(** How the loop over the years ends, given the exchanges of each year it
    has entered. *)
Definition years_end (fuel : nat) (years : list Z) (all_data : list DataFrame)
    (segs : list (list Exchange)) (res : option (result (list DataFrame))) : Prop :=
  match res with
  | Some (Ok all_data') =>
      List.length segs = List.length years
      /\ Forall closed_segment segs
      /\ all_data' = all_data ++ kept_frames (List.concat segs)
  | Some (Raise e) =>
      exists segs' init p out,
        segs = segs' ++ [init ++ [(p, out)]]
        /\ Forall closed_segment segs' /\ receive out = Raise e
  | None =>
      exists segs' seg,
        segs = segs' ++ [seg]
        /\ Forall closed_segment segs'
        /\ List.length seg = fuel
        /\ Forall (fun ex => full_page (snd ex) = true) seg
  end.

End Notions.

(** The page of records read from an answer, when [fetch_data] returns a
    frame for it. *)
Definition received_page (out : http_outcome) : list (list record) :=
  match out with
  | Responded r =>
      match raise_for_status r, body r with
      | Ok _, Some data => [data]
      | _, _ => []
      end
  | Failed _ => []
  end.

(** The pages that make a frame that is not empty: they have a record, and
    their records have a field. *)
Definition nonempty_pages (pages : list (list record)) : list (list record) :=
  filter (fun data => negb (empty (DataFrame_of_records data))) pages.

(** The page received with an answer, when its frame is not empty. *)
Definition kept_page (out : http_outcome) : list (list record) :=
  nonempty_pages (received_page out).

Definition kept_pages (exchanges : list Exchange) : list (list record) :=
  flat_map (fun ex => kept_page (snd ex)) exchanges.

(** ** Tables and statistics *)

(** A table is well formed when no column label occurs twice and every row
    has one cell per column. *)
Definition well_formed (df : DataFrame) : Prop :=
  NoDup (columns df)
  /\ Forall (fun row => List.length row = List.length (columns df)) (rows df).

(** The table [get_summary_stats] leaves to its caller when the call goes
    through: the [total_commitment] column, if there is one, holds the
    numbers read from its cells. *)
Definition coerced (parse_number : string -> option Qc) (df : DataFrame) : DataFrame :=
  if mem "total_commitment" (columns df)
  then set_column "total_commitment"
         (to_numeric parse_number (column "total_commitment" df)) df
  else df.

(** The entries of the statistics for the record count and the category
    columns, given the sorted funding years. *)
Definition category_entries (df : DataFrame) (years : list cell) : Stats :=
  [("total_records", SInt (len df));
   ("funding_years", SList years);
   ("states", SInt (if mem "state" (columns df)
                    then nunique (column "state" df) else 0));
   ("unique_entities", SInt (if mem "entity_name" (columns df)
                             then nunique (column "entity_name" df) else 0));
   ("applicant_types", SDict (if mem "applicant_type" (columns df)
                              then value_counts (column "applicant_type" df)
                              else []))].

(** The entries of the statistics for the commitments: none without the
    column, the sum and the mean of the numbers read from it otherwise. *)
Definition commitment_entries (parse_number : string -> option Qc)
    (df : DataFrame) : Stats :=
  if mem "total_commitment" (columns df)
  then [("total_funding",
         SNum (series_sum (to_numeric parse_number (column "total_commitment" df))));
        ("avg_commitment",
         series_mean (to_numeric parse_number (column "total_commitment" df)))]
  else [].


(** [x > m] on two numbers. *)
Definition exceeds (m x : Qc) : bool := if Qclt_le_dec m x then true else false.

(** ** Instances of the API *)

(** An API that answers every request with the same response. *)
Definition constant_api (r : Response) : World -> Params -> http_outcome :=
  fun _ _ => Responded r.

(** An API that gives the answers of [script] in turn, whatever is asked,
    and refuses the connection once the script is over. *)
Definition script_api (script : list http_outcome) : World -> Params -> http_outcome :=
  fun w _ => nth (List.length w) script (Failed ConnectionError).

Definition page (data : list record) : http_outcome :=
  Responded (mkResponse 200 (Some data)).

(** The pages the API holds for one year: the full pages, then the page
    that ends the year. *)
Definition year_pages : Type := (list (list record) * list record)%type.

Definition pages_of (part : year_pages) : list (list record) :=
  fst part ++ [snd part].

(** The pages of a year are cut as the loop expects them: every page but
    the last is full, the last is not. *)
Definition well_paged (batch_size : Z) (part : year_pages) : Prop :=
  Forall (fun data => full_page batch_size (page data) = true) (fst part)
  /\ full_page batch_size (page (snd part)) = false.

Definition script_of (parts : list year_pages) : list http_outcome :=
  flat_map (fun part => map page (pages_of part)) parts.

(** ** Tables, pages and library functions of the examples *)

Definition school (name year : string) : record :=
  [("entity_name", Str name); ("funding_year", Str year)].

(** Two years at two records a page: 2023 has three records, 2024 none. *)
Definition two_years : list http_outcome :=
  [page [school "School A" "2023"; school "School B" "2023"];
   page [school "School C" "2023"];
   page []].

Definition two_years_history : World :=
  [(request_params (Some 2023) None None 2 0,
    page [school "School A" "2023"; school "School B" "2023"]);
   (request_params (Some 2023) None None 2 2, page [school "School C" "2023"]);
   (request_params (Some 2024) None None 2 0, page [])].

Definition two_years_table : DataFrame :=
  {| columns := ["entity_name"; "funding_year"];
     rows := [[Str "School A"; Str "2023"];
              [Str "School B"; Str "2023"];
              [Str "School C"; Str "2023"]] |}.

(** A full page, then a timeout. *)
Definition page_then_timeout : list http_outcome :=
  [page [school "School A" "2023"; school "School B" "2023"]; Failed Timeout].

(** The record of [test_fetch_data_success]. *)
Definition test_record : record :=
  [("entity_name", Str "Test School District");
   ("funding_year", Str "2024");
   ("state", Str "CA");
   ("applicant_type", Str "School");
   ("total_commitment", Str "50000")].

(** The table of [test_save_data]. *)
Definition col1_table : DataFrame :=
  {| columns := ["col1"];
     rows := [[Num (Q2Qc 1)]; [Num (Q2Qc 2)]; [Num (Q2Qc 3)]] |}.

(** A table with the single column [total_commitment], as the test of
    [get_summary_stats] fills it. *)
Definition commitments_table : DataFrame :=
  {| columns := ["total_commitment"];
     rows := [[Str "10000"]; [Str "20000"]; [Str "15000"]] |}.

(** The table of [test_get_summary_stats]. *)
Definition test_table : DataFrame :=
  {| columns := ["funding_year"; "state"; "entity_name"; "applicant_type";
                 "total_commitment"];
     rows := [[Num (Q2Qc 2024); Str "CA"; Str "School A"; Str "School"; Str "10000"];
              [Num (Q2Qc 2024); Str "CA"; Str "School B"; Str "School"; Str "20000"];
              [Num (Q2Qc 2023); Str "NY"; Str "School A"; Str "Library"; Str "15000"]] |}.

(** A reading of plain integer literals such as [10000] or [-3]; pandas
    reads these strings so, and more besides. *)
Definition parse_integer (s : string) : option Qc :=
  match NilZero.int_of_string s with
  | Some n => Some (Q2Qc (Z.of_int n # 1))
  | None => None
  end.

Definition all_numbers (l : list cell) : bool :=
  forallb (fun v => match v with Num _ => true | _ => false end) l.

Definition all_strings (l : list cell) : bool :=
  forallb (fun v => match v with Str _ => true | _ => false end) l.

(** [a <= b] for two numbers or two strings. *)
Definition cell_leb (a b : cell) : bool :=
  match a, b with
  | Num p, Num q => Qle_bool p q
  | Str s, Str t => (s <=? t)%string
  | _, _ => false
  end.

Fixpoint insert_sorted (v : cell) (l : list cell) : list cell :=
  match l with
  | [] => [v]
  | x :: rest => if cell_leb v x then v :: l else x :: insert_sorted v rest
  end.

(** The values compare with one another under Python's [<]: all are
    numbers or all are strings, and none is missing. *)
Definition comparable (l : list cell) : bool := all_numbers l || all_strings l.

(** Each value is at most the next. *)
Definition ascending (l : list cell) : Prop :=
  Sorted (fun a b => cell_leb a b = true) l.

(** [a < b] between two floats: false as soon as one of them is NaN. *)
Definition float_ltb (a b : cell) : bool :=
  match a, b with
  | Num p, Num q => negb (Qle_bool q p)
  | _, _ => false
  end.

(** [list.sort] of CPython on a list of fewer than 64 values, which it
    sorts as one run: [count_run] takes the longest prefix that never
    descends, or that strictly descends and is then reversed, and
    [binarysort] inserts the other values one by one at the place a binary
    search gives.  Only [lt] is ever asked of two values. *)
Fixpoint run_while (keep : cell -> cell -> bool) (prev : cell) (l : list cell)
    : list cell * list cell :=
  match l with
  | x :: rest =>
      if keep x prev
      then let (run, tl) := run_while keep x rest in (x :: run, tl)
      else ([], l)
  | [] => ([], [])
  end.

Definition count_run (lt : cell -> cell -> bool) (l : list cell)
    : list cell * list cell :=
  match l with
  | a :: b :: rest =>
      if lt b a
      then let (run, tl) := run_while lt b rest in (rev (a :: b :: run), tl)
      else let (run, tl) := run_while (fun x prev => negb (lt x prev)) b rest in
           (a :: b :: run, tl)
  | _ => (l, [])
  end.

Fixpoint bisect (fuel : nat) (lt : cell -> cell -> bool) (pivot : cell)
    (run : list cell) (l r : nat) : nat :=
  match fuel with
  | O => l
  | S fuel =>
      if (l <? r)%nat
      then let p := (l + (r - l) / 2)%nat in
           if lt pivot (nth p run NA)
           then bisect fuel lt pivot run l p
           else bisect fuel lt pivot run (p + 1)%nat r
      else l
  end.

Definition binarysort (lt : cell -> cell -> bool) (run rest : list cell) : list cell :=
  fold_left (fun run pivot =>
               let i := bisect (List.length run) lt pivot run 0 (List.length run) in
               firstn i run ++ pivot :: skipn i run)
            rest run.

Definition list_sort (lt : cell -> cell -> bool) (l : list cell) : list cell :=
  let (run, rest) := count_run lt l in binarysort lt run rest.

(** Python's [sorted] on the distinct values of a column.
    - Numbers only, or strings only: the values in ascending order.
    - Numbers and the missing value, which is NaN in a column of numbers:
      no error, and an order that depends on where NaN stands, since every
      comparison with NaN is false.  The answer is that of [list.sort] on
      one run, which is CPython's for fewer than 64 values; from 64 values
      on CPython merges several runs, which this instance does not follow.
    - Strings with numbers or with the missing value: [TypeError]. *)
Definition sorted_uniform (l : list cell) : result (list cell) :=
  match l with
  | [] | [_] => Ok l
  | _ => if all_numbers l || all_strings l
         then Ok (fold_right insert_sorted [] l)
         else if forallb (fun v => match v with Str _ => false | _ => true end) l
              then Ok (list_sort float_ltb l)
              else Raise TypeError
  end.

(** The revenue of two rows labelled 1 and 3, the same for both. *)
Definition equal_revenues : Series :=
  [(1, Some (Q2Qc 10)); (3, Some (Q2Qc 10))].


(** A table whose years are 2024, missing and 2023. *)
Definition years_with_nan_table : DataFrame :=
  {| columns := ["funding_year"];
     rows := [[Num (Q2Qc 2024)]; [NA]; [Num (Q2Qc 2023)]] |}.

(** * Properties *)

(** ** The filter expression of [fetch_data] *)

Lemma where_clauses_supplied (funding_year : option Z)
    (state applicant_type : option string) :
  no_falsy_filter funding_year state applicant_type = true ->
  where_clauses funding_year state applicant_type
  = supplied_clauses funding_year state applicant_type.
Proof.
  unfold no_falsy_filter, where_clauses, supplied_clauses.
  intros H.
  apply andb_prop in H as [H Hat]. apply andb_prop in H as [Hfy Hst].
  apply eqb_prop in Hfy, Hst, Hat.
  destruct funding_year as [y|], state as [s|], applicant_type as [t|];
    cbn [is_some] in *; rewrite ?Hfy, ?Hst, ?Hat; reflexivity.
Qed.

Lemma dict_get_app_hit {V : Type} (key : string) (d d' : list (string * V)) (v : V) :
  dict_get key d = Some v -> dict_get key (d ++ d') = Some v.
Proof.
  induction d as [|[k v'] d IH]; cbn; [discriminate|].
  destruct (k =? key)%string; [trivial | exact IH].
Qed.

(** The [$where] parameter is there exactly when [where_clauses] is not
    empty, and is then its clauses joined by [ AND ]. *)
Lemma request_params_where (funding_year : option Z)
    (state applicant_type : option string) (limit offset : Z) :
  dict_get "$where" (request_params funding_year state applicant_type limit offset)
  = match where_clauses funding_year state applicant_type with
    | [] => None
    | clauses => Some (PStr (join " AND " clauses))
    end.
Proof.
  unfold request_params.
  destruct (where_clauses funding_year state applicant_type); reflexivity.
Qed.

(** C2, as amended.  For every filter set in which each supplied filter has
    a true truth value (the year is not 0, the strings are not empty), the
    request's [$where] parameter is the supplied filters' [field = value]
    clauses, one per filter, joined by [ AND ], the year unquoted and the
    strings in single quotes; with no filter there is no [$where]. *)
Theorem fetch_data_where_expression (funding_year : option Z)
    (state applicant_type : option string) (limit offset : Z) :
  no_falsy_filter funding_year state applicant_type = true ->
  dict_get "$where" (request_params funding_year state applicant_type limit offset)
  = supplied_where funding_year state applicant_type.
Proof.
  intros H. rewrite request_params_where.
  rewrite (where_clauses_supplied _ _ _ H). reflexivity.
Qed.

Lemma fetch_data_where_expression_witness :
  no_falsy_filter (Some 2024) (Some "CA") (Some "Library") = true
  /\ dict_get "$where" (request_params (Some 2024) (Some "CA") (Some "Library") 100 0)
     = Some (PStr "funding_year = 2024 AND state = 'CA' AND applicant_type = 'Library'").
Proof.
  split; [reflexivity|].
  rewrite (fetch_data_where_expression (Some 2024) (Some "CA") (Some "Library") 100 0);
    reflexivity.
Defined.

(** C2 as it is stated fails: a filter on year 0 is supplied, and the
    request carries no [$where] at all. *)
Lemma fetch_data_where_expression_year_zero :
  ~ (forall (funding_year : option Z) (state applicant_type : option string)
            (limit offset : Z),
        dict_get "$where"
          (request_params funding_year state applicant_type limit offset)
        = supplied_where funding_year state applicant_type).
Proof.
  intros H. specialize (H (Some 0) None None 1000 0). discriminate H.
Qed.

(** C9.  A year of 0, an empty state and an empty applicant type are each
    treated as a filter that was not supplied: the list of clauses, the
    request and the whole call are the same as with [None]. *)
Theorem fetch_data_falsy_filter_dropped (api : World -> Params -> http_outcome)
    (funding_year : option Z) (state applicant_type : option string)
    (limit offset : Z) (w : World) :
  (where_clauses (Some 0) state applicant_type
   = where_clauses None state applicant_type
   /\ fetch_data api (Some 0) state applicant_type limit offset w
      = fetch_data api None state applicant_type limit offset w)
  /\ (where_clauses funding_year (Some "") applicant_type
      = where_clauses funding_year None applicant_type
      /\ fetch_data api funding_year (Some "") applicant_type limit offset w
         = fetch_data api funding_year None applicant_type limit offset w)
  /\ (where_clauses funding_year state (Some "")
      = where_clauses funding_year state None
      /\ fetch_data api funding_year state (Some "") limit offset w
         = fetch_data api funding_year state None limit offset w).
Proof.
  assert (H1 : where_clauses (Some 0) state applicant_type
               = where_clauses None state applicant_type) by reflexivity.
  assert (H2 : where_clauses funding_year (Some "") applicant_type
               = where_clauses funding_year None applicant_type) by reflexivity.
  assert (H3 : where_clauses funding_year state (Some "")
               = where_clauses funding_year state None) by reflexivity.
  unfold fetch_data, request_params.
  rewrite H1, H2, H3. repeat split; reflexivity.
Qed.

(** ** Failures of one page request *)

(** [fetch_data] sends exactly one request, whatever comes back. *)
Lemma fetch_data_one_request (api : World -> Params -> http_outcome)
    (funding_year : option Z) (state applicant_type : option string)
    (limit offset : Z) (w : World) :
  let params := request_params funding_year state applicant_type limit offset in
  fetch_data api funding_year state applicant_type limit offset w
  = (receive (api w params), w ++ [(params, api w params)]).
Proof. reflexivity. Qed.

Lemma receive_failed (out : http_outcome) :
  failed_call out = true ->
  exists e, receive out = Raise (RequestException e).
Proof.
  destruct out as [e|r]; cbn.
  - intros _. exists e. reflexivity.
  - intros H. unfold raise_for_status. rewrite H. eexists. reflexivity.
Qed.

(** C6, as amended.  When the network operation of a [fetch_data] call
    fails, or its response has a 4xx or 5xx status, the call raises a
    [RequestException]: it returns no table, and it has sent that one
    request and no other. *)
Theorem fetch_data_raises_on_failure (api : World -> Params -> http_outcome)
    (funding_year : option Z) (state applicant_type : option string)
    (limit offset : Z) (w : World) :
  let params := request_params funding_year state applicant_type limit offset in
  failed_call (api w params) = true ->
  exists e,
    fetch_data api funding_year state applicant_type limit offset w
    = (Raise (RequestException e), w ++ [(params, api w params)]).
Proof.
  intros params H. destruct (receive_failed _ H) as [e He].
  exists e. rewrite fetch_data_one_request. fold params. rewrite He. reflexivity.
Qed.

Lemma fetch_data_raises_on_failure_witness :
  failed_call (constant_api (mkResponse 404 None) [] (request_params (Some 2024) None None 1 0)) = true
  /\ exists e,
       fetch_data (constant_api (mkResponse 404 None)) (Some 2024) None None 1 0 []
       = (Raise (RequestException e),
          [] ++ [(request_params (Some 2024) None None 1 0,
                  constant_api (mkResponse 404 None) []
                    (request_params (Some 2024) None None 1 0))]).
Proof.
  split; [reflexivity|].
  apply (fetch_data_raises_on_failure (constant_api (mkResponse 404 None))
           (Some 2024) None None 1 0 []).
  reflexivity.
Defined.

(** C6 as it is stated fails: a response with status 300 is not a 2xx
    response, [raise_for_status] lets it through, and [fetch_data] returns
    the table read from its body. *)
Lemma fetch_data_status_300_returns :
  ~ (forall (api : World -> Params -> http_outcome) (funding_year : option Z)
            (state applicant_type : option string) (limit offset : Z) (w : World)
            (r : Response),
        api w (request_params funding_year state applicant_type limit offset)
        = Responded r ->
        ~ (200 <= status_code_of r < 300) ->
        exists e,
          fst (fetch_data api funding_year state applicant_type limit offset w)
          = Raise (RequestException e)).
Proof.
  intros H.
  destruct (H (constant_api (mkResponse 300 (Some []))) None None None 1000 0 []
              (mkResponse 300 (Some [])) eq_refl) as [e He].
  - cbn. lia.
  - discriminate He.
Qed.

(** ** Summary statistics *)

Lemma cell_eqb_eq (a b : cell) : cell_eqb a b = true <-> a = b.
Proof.
  destruct a as [|p|s], b as [|q|t]; cbn; try (split; [discriminate | congruence]).
  - split; reflexivity.
  - unfold Qc_eq_bool. destruct (Qc_eq_dec p q) as [->|Hne].
    + split; reflexivity.
    + split; [discriminate | congruence].
  - rewrite String.eqb_eq. split; congruence.
Qed.

Lemma existsb_cell_eqb (v : cell) (l : list cell) :
  existsb (cell_eqb v) l = true <-> In v l.
Proof.
  rewrite existsb_exists. split.
  - intros [x [Hx Heq]]. apply cell_eqb_eq in Heq. subst. exact Hx.
  - intros H. exists v. split; [exact H | apply cell_eqb_eq; reflexivity].
Qed.

Lemma unique_from_In (s seen : list cell) (v : cell) :
  In v (unique_from seen s) <-> In v seen \/ In v s.
Proof.
  revert seen. induction s as [|x s IH]; intros seen; cbn.
  - tauto.
  - destruct (existsb (cell_eqb x) seen) eqn:E; rewrite IH.
    + apply existsb_cell_eqb in E. split; [tauto|].
      intros [H|[H|H]]; subst; tauto.
    + rewrite in_app_iff. cbn. tauto.
Qed.

Lemma unique_from_NoDup (s seen : list cell) :
  NoDup seen -> NoDup (unique_from seen s).
Proof.
  revert seen. induction s as [|x s IH]; intros seen Hnd; cbn; [exact Hnd|].
  destruct (existsb (cell_eqb x) seen) eqn:E; apply IH; [exact Hnd|].
  apply NoDup_app; [exact Hnd | repeat constructor; intros [] |].
  intros y Hy [Hx|[]]. subst y.
  apply existsb_cell_eqb in Hy. congruence.
Qed.

Lemma dropna_In (s : list cell) (v : cell) :
  In v (dropna s) <-> In v s /\ v <> NA.
Proof.
  unfold dropna. rewrite filter_In.
  destruct v; cbn; split; intros [H1 H2]; split; trivial; congruence.
Qed.

Lemma unique_dropna_distinct (s : list cell) :
  distinct_values s (unique (dropna s)).
Proof.
  split.
  - apply unique_from_NoDup. constructor.
  - intros v. unfold unique. rewrite unique_from_In, dropna_In. cbn. tauto.
Qed.

Lemma distinct_values_length (s vs vs' : list cell) :
  distinct_values s vs -> distinct_values s vs' -> List.length vs = List.length vs'.
Proof.
  intros [Hnd H] [Hnd' H'].
  apply Permutation.Permutation_length, Permutation.NoDup_Permutation; trivial.
  intros v. rewrite H, H'. tauto.
Qed.

(** [nunique] is the number of distinct values that are not missing. *)
Lemma nunique_distinct (s vs : list cell) :
  distinct_values s vs -> nunique s = Z.of_nat (List.length vs).
Proof.
  intros H. unfold nunique. f_equal.
  exact (distinct_values_length s _ _ (unique_dropna_distinct s) H).
Qed.

Lemma insert_by_count_perm (e : cell * Z) (l : list (cell * Z)) :
  Permutation.Permutation (insert_by_count e l) (e :: l).
Proof.
  induction l as [|e' l IH]; cbn; [apply Permutation.Permutation_refl|].
  destruct (snd e' <? snd e); [apply Permutation.Permutation_refl|].
  eapply Permutation.perm_trans; [apply Permutation.perm_skip, IH|].
  apply Permutation.perm_swap.
Qed.

Lemma fold_insert_by_count_perm (f : cell -> Z) (l : list cell) (acc : list (cell * Z)) :
  Permutation.Permutation
    (fold_left (fun acc v => insert_by_count (v, f v) acc) l acc)
    (map (fun v => (v, f v)) l ++ acc).
Proof.
  revert acc. induction l as [|x l IH]; intros acc; cbn;
    [apply Permutation.Permutation_refl|].
  eapply Permutation.perm_trans; [apply IH|].
  eapply Permutation.perm_trans;
    [apply Permutation.Permutation_app_head, insert_by_count_perm|].
  apply Permutation.Permutation_sym, Permutation.Permutation_middle.
Qed.

(** [value_counts] has one entry per distinct value that is not missing,
    and each entry carries the number of occurrences of its value. *)
Lemma value_counts_perm (s : list cell) :
  Permutation.Permutation (value_counts s)
    (map (fun v => (v, occurrences v s)) (unique (dropna s))).
Proof.
  unfold value_counts.
  eapply Permutation.perm_trans; [apply fold_insert_by_count_perm|].
  rewrite app_nil_r. apply Permutation.Permutation_refl.
Qed.

Lemma value_counts_length (s vs : list cell) :
  distinct_values s vs -> List.length (value_counts s) = List.length vs.
Proof.
  intros H.
  rewrite (Permutation.Permutation_length (value_counts_perm s)), length_map.
  exact (distinct_values_length s _ _ (unique_dropna_distinct s) H).
Qed.

Lemma value_counts_In (s : list cell) (v : cell) (n : Z) :
  In (v, n) (value_counts s) <-> (In v s /\ v <> NA) /\ n = occurrences v s.
Proof.
  split.
  - intros H.
    apply (Permutation.Permutation_in _ (value_counts_perm s)) in H.
    apply in_map_iff in H as [x [Hx Hin]]. inversion Hx; subst.
    split; [|reflexivity].
    apply (proj2 (unique_dropna_distinct s)). exact Hin.
  - intros [Hv ->].
    apply (Permutation.Permutation_in _
             (Permutation.Permutation_sym (value_counts_perm s))).
    apply in_map_iff. exists v. split; [reflexivity|].
    apply (proj2 (unique_dropna_distinct s)). exact Hv.
Qed.

Section SummaryProperties.

Variable sorted : list cell -> result (list cell).
Variable parse_number : string -> option Qc.

Local Abbreviation funding_years_of := (funding_years_of sorted).

(** The first five entries of the statistics of a table that is not empty. *)
Lemma get_summary_stats_entries (df : DataFrame) (years : list cell) :
  empty df = false ->
  funding_years_of df = Ok years ->
  exists more,
    fst (get_summary_stats sorted parse_number df)
    = Ok ([("total_records", SInt (len df));
           ("funding_years", SList years);
           ("states", SInt (if mem "state" (columns df)
                            then nunique (column "state" df) else 0));
           ("unique_entities", SInt (if mem "entity_name" (columns df)
                                     then nunique (column "entity_name" df) else 0));
           ("applicant_types", SDict (if mem "applicant_type" (columns df)
                                      then value_counts (column "applicant_type" df)
                                      else []))] ++ more).
Proof.
  intros Hne Hy. unfold get_summary_stats. rewrite Hne.
  unfold funding_years_of in Hy. rewrite Hy.
  destruct (mem "total_commitment" (columns df)).
  - eexists. reflexivity.
  - exists []. rewrite app_nil_r. reflexivity.
Qed.

(** An empty table has no statistics at all. *)
Lemma get_summary_stats_empty (df : DataFrame) :
  empty df = true -> get_summary_stats sorted parse_number df = (Ok [], df).
Proof. intros H. unfold get_summary_stats. rewrite H. reflexivity. Qed.

(** A table without a [total_commitment] column is left as it was. *)
Lemma get_summary_stats_frame (df : DataFrame) :
  mem "total_commitment" (columns df) = false ->
  snd (get_summary_stats sorted parse_number df) = df.
Proof.
  intros H. unfold get_summary_stats. rewrite H.
  destruct (empty df); [reflexivity|].
  destruct (if mem "funding_year" (columns df) then _ else _); reflexivity.
Qed.

(** C1, at the input where the code departs from it.  On the table whose
    [total_commitment] column holds the strings of the test suite the call
    succeeds, and the caller's table is not what it was: no cell of the
    column is a string any more, each is a number or missing. *)
Theorem get_summary_stats_overwrites_total_commitment :
  is_ok (fst (get_summary_stats sorted parse_number commitments_table)) = true
  /\ snd (get_summary_stats sorted parse_number commitments_table)
     <> commitments_table
  /\ column "total_commitment"
       (snd (get_summary_stats sorted parse_number commitments_table))
     = to_numeric parse_number [Str "10000"; Str "20000"; Str "15000"].
Proof.
  split; [reflexivity|]. split; [|reflexivity].
  cbn. destruct (parse_number "10000"); discriminate.
Qed.

End SummaryProperties.

(** *** The category columns *)

Lemma unique_In (s : list cell) (v : cell) : In v (unique s) <-> In v s.
Proof. unfold unique. rewrite unique_from_In. cbn. tauto. Qed.

Lemma comparable_no_NA (l : list cell) (v : cell) :
  comparable l = true -> In v l -> v <> NA.
Proof.
  unfold comparable, all_numbers, all_strings. intros H Hv ->.
  apply orb_prop in H as [H|H]; rewrite forallb_forall in H;
    specialize (H NA Hv); discriminate H.
Qed.

Lemma comparable_incl (l l' : list cell) :
  comparable l = true -> (forall v, In v l' -> In v l) -> comparable l' = true.
Proof.
  unfold comparable, all_numbers, all_strings. intros H Hincl.
  apply orb_prop in H as [H|H]; rewrite forallb_forall in H.
  - apply orb_true_intro. left. apply forallb_forall. intros v Hv. apply H, Hincl, Hv.
  - apply orb_true_intro. right. apply forallb_forall. intros v Hv. apply H, Hincl, Hv.
Qed.

(** Two values of a list of numbers, or of a list of strings, compare one
    way or the other. *)
Lemma comparable_total (l : list cell) (a b : cell) :
  comparable l = true -> In a l -> In b l ->
  cell_leb a b = true \/ cell_leb b a = true.
Proof.
  unfold comparable, all_numbers, all_strings. intros H Ha Hb.
  apply orb_prop in H as [H|H]; rewrite forallb_forall in H;
    pose proof (H a Ha) as Hka; pose proof (H b Hb) as Hkb;
    destruct a as [|p|s], b as [|q|t]; try discriminate; cbn [cell_leb].
  - destruct (Qlt_le_dec p q) as [Hlt|Hle].
    + left. apply Qle_bool_iff, Qlt_le_weak, Hlt.
    + right. apply Qle_bool_iff, Hle.
  - apply String.leb_total.
Qed.

Lemma insert_sorted_perm (v : cell) (l : list cell) :
  Permutation (insert_sorted v l) (v :: l).
Proof.
  induction l as [|x l IH]; cbn [insert_sorted]; [reflexivity|].
  destruct (cell_leb v x); [reflexivity|].
  rewrite IH. apply perm_swap.
Qed.

Lemma insert_sorted_ascending (v : cell) (l : list cell) :
  (forall x, In x l -> cell_leb v x = true \/ cell_leb x v = true) ->
  ascending l -> ascending (insert_sorted v l).
Proof.
  unfold ascending. intros Htotal Hl.
  induction Hl as [|x l Hl IH Hhd]; cbn [insert_sorted].
  - repeat constructor.
  - destruct (cell_leb v x) eqn:E.
    + constructor; [constructor; assumption | constructor; exact E].
    + assert (Hxv : cell_leb x v = true).
      { destruct (Htotal x (or_introl eq_refl)) as [H|H]; [congruence | exact H]. }
      constructor.
      * apply IH. intros y Hy. apply Htotal. right. exact Hy.
      * destruct l as [|y l]; cbn [insert_sorted]; [constructor; exact Hxv|].
        destruct (cell_leb v y); constructor; [exact Hxv|].
        inversion Hhd; assumption.
Qed.

Lemma fold_insert_sorted (l : list cell) :
  comparable l = true ->
  Permutation l (fold_right insert_sorted [] l)
  /\ ascending (fold_right insert_sorted [] l).
Proof.
  intros Hcmp.
  assert (H : forall l', (forall v, In v l' -> In v l) ->
            Permutation l' (fold_right insert_sorted [] l')
            /\ ascending (fold_right insert_sorted [] l')).
  { induction l' as [|v l' IH]; intros Hincl; cbn [fold_right].
    - split; [reflexivity | constructor].
    - destruct IH as [Hp Ha]; [intros x Hx; apply Hincl; right; exact Hx|].
      split.
      + rewrite insert_sorted_perm. constructor. exact Hp.
      + apply insert_sorted_ascending; [|exact Ha].
        intros x Hx. apply (comparable_total l); [exact Hcmp | |].
        * apply Hincl. left. reflexivity.
        * apply Hincl. right. apply (Permutation_in _ (Permutation_sym Hp)), Hx. }
  apply H. trivial.
Qed.

(** [sorted_uniform] does what Python's [sorted] does on values that
    compare with one another. *)
Lemma sorted_uniform_ascending (l : list cell) :
  comparable l = true ->
  exists l', sorted_uniform l = Ok l' /\ Permutation l l' /\ ascending l'.
Proof.
  intros Hcmp. destruct (fold_insert_sorted l Hcmp) as [Hp Ha].
  destruct l as [|a [|b l]].
  - exists []. repeat split; constructor.
  - exists [a]. repeat split; [reflexivity | repeat constructor].
  - exists (fold_right insert_sorted [] (a :: b :: l)).
    unfold sorted_uniform. unfold comparable in Hcmp. rewrite Hcmp.
    repeat split; assumption.
Qed.

Section CategoryColumns.

Variable sorted : list cell -> result (list cell).
Variable parse_number : string -> option Qc.

(** What Python's [sorted] does on values that compare with one another,
    numbers only or strings only: it returns them all, in ascending
    order. *)
Hypothesis sorted_ascending :
  forall l, comparable l = true ->
    exists l', sorted l = Ok l' /\ Permutation l l' /\ ascending l'.

(** C4, as amended.  For every table that is not empty, whose column labels
    are distinct and whose years, when it has a [funding_year] column, are
    all numbers or all strings with none missing, [get_summary_stats]
    returns statistics in which every category column has its entry.  For a
    column the table lacks the entry is empty or zero and nothing is raised:
    [funding_years] is the empty list, [states] and [unique_entities] are 0,
    [applicant_types] is the empty dict.  For a column the table has,
    [states] and [unique_entities] are the number of distinct values of
    [state] and [entity_name] that are not missing, [funding_years] is the
    list of the distinct years in ascending order, and [applicant_types]
    gives, for each distinct applicant type that is not missing, its number
    of rows. *)
Theorem get_summary_stats_category_columns (df : DataFrame) :
  empty df = false ->
  NoDup (columns df) ->
  (mem "funding_year" (columns df) = true ->
   comparable (column "funding_year" df) = true) ->
  exists stats years,
    fst (get_summary_stats sorted parse_number df) = Ok stats
    /\ dict_get "funding_years" stats = Some (SList years)
    /\ (if mem "funding_year" (columns df)
        then distinct_values (column "funding_year" df) years /\ ascending years
        else years = [])
    /\ (forall c key,
          In (c, key) [("state", "states"); ("entity_name", "unique_entities")] ->
          if mem c (columns df)
          then forall vs, distinct_values (column c df) vs ->
                 dict_get key stats = Some (SInt (Z.of_nat (List.length vs)))
          else dict_get key stats = Some (SInt 0))
    /\ exists d,
         dict_get "applicant_types" stats = Some (SDict d)
         /\ if mem "applicant_type" (columns df)
            then (forall vs, distinct_values (column "applicant_type" df) vs ->
                    List.length d = List.length vs)
                 /\ (forall v n, In (v, n) d <->
                       (In v (column "applicant_type" df) /\ v <> NA)
                       /\ n = occurrences v (column "applicant_type" df))
            else d = [].
Proof.
  intros Hne _ Hcmp.
  assert (Hy : exists years,
            funding_years_of sorted df = Ok years
            /\ if mem "funding_year" (columns df)
               then distinct_values (column "funding_year" df) years
                    /\ ascending years
               else years = []).
  { unfold funding_years_of.
    destruct (mem "funding_year" (columns df)); [|exists []; split; reflexivity].
    specialize (Hcmp eq_refl).
    destruct (sorted_ascending (unique (column "funding_year" df)))
      as [years [Hs [Hp Ha]]].
    { apply (comparable_incl _ _ Hcmp). intros v Hv. apply unique_In, Hv. }
    exists years. split; [exact Hs|]. split; [|exact Ha]. split.
    - apply (Permutation_NoDup Hp). apply unique_from_NoDup. constructor.
    - intros v. split.
      + intros Hv. apply (Permutation_in _ (Permutation_sym Hp)) in Hv.
        apply (proj1 (unique_In _ _)) in Hv. split; [exact Hv|].
        apply (comparable_no_NA _ _ Hcmp Hv).
      + intros [Hv _]. apply (Permutation_in _ Hp). apply unique_In, Hv. }
  destruct Hy as [years [Hy Hyears]].
  destruct (get_summary_stats_entries sorted parse_number df years Hne Hy)
    as [more Hstats].
  eexists. exists years. split; [exact Hstats|].
  split; [apply dict_get_app_hit; reflexivity|].
  split; [exact Hyears|].
  split.
  { intros c key [H|[H|[]]]; inversion H; subst c key; clear H.
    - destruct (mem "state" (columns df)).
      + intros vs Hvs. rewrite (nunique_distinct _ _ Hvs).
        apply dict_get_app_hit. reflexivity.
      + apply dict_get_app_hit. reflexivity.
    - destruct (mem "entity_name" (columns df)).
      + intros vs Hvs. rewrite (nunique_distinct _ _ Hvs).
        apply dict_get_app_hit. reflexivity.
      + apply dict_get_app_hit. reflexivity. }
  eexists. split; [apply dict_get_app_hit; reflexivity|].
  destruct (mem "applicant_type" (columns df)); [|reflexivity].
  split.
  - intros vs Hvs. apply value_counts_length. exact Hvs.
  - intros v n. apply value_counts_In.
Qed.

End CategoryColumns.

(** *** The statistics on concrete tables *)

Lemma get_summary_stats_category_columns_witness :
  empty test_table = false
  /\ NoDup (columns test_table)
  /\ comparable (column "funding_year" test_table) = true
  /\ exists stats years,
       fst (get_summary_stats sorted_uniform parse_integer test_table) = Ok stats
       /\ dict_get "funding_years" stats = Some (SList years)
       /\ distinct_values (column "funding_year" test_table) years
       /\ ascending years
       /\ dict_get "states" stats = Some (SInt 2).
Proof.
  assert (Hlabels : NoDup (columns test_table)).
  { repeat (constructor; [cbn; intuition discriminate|]). constructor. }
  split; [reflexivity|]. split; [exact Hlabels|]. split; [reflexivity|].
  destruct (get_summary_stats_category_columns sorted_uniform parse_integer
              sorted_uniform_ascending test_table eq_refl Hlabels (fun _ => eq_refl))
    as [stats [years [Hs [Hy [Hyears [Hc _]]]]]].
  change (mem "funding_year" (columns test_table)) with true in Hyears.
  cbv iota in Hyears. destruct Hyears as [Hdistinct Hasc].
  exists stats, years. split; [exact Hs|]. split; [exact Hy|].
  split; [exact Hdistinct|]. split; [exact Hasc|].
  exact (Hc "state" "states" (or_introl eq_refl) _
           (unique_dropna_distinct (column "state" test_table))).
Defined.

(** C4 as it is stated fails: the table has no [state] column, and the
    statistics still have a [states] entry, equal to 0. *)
Lemma get_summary_stats_absent_state_not_omitted :
  ~ (forall (df : DataFrame) (stats : Stats),
        fst (get_summary_stats sorted_uniform parse_integer df) = Ok stats ->
        mem "state" (columns df) = false ->
        dict_get "states" stats = None).
Proof.
  intros H.
  specialize (H commitments_table _ eq_refl eq_refl). discriminate H.
Qed.

(** Outside the amended claim: with a missing year among the numbers every
    comparison with NaN is false, [sorted] raises nothing and the years come
    back in an order that is not ascending. *)
Example get_summary_stats_years_with_nan :
  exists stats,
    fst (get_summary_stats sorted_uniform parse_integer years_with_nan_table)
    = Ok stats
    /\ dict_get "funding_years" stats
       = Some (SList [Num (Q2Qc 2024); NA; Num (Q2Qc 2023)]).
Proof. eexists. split; vm_compute; reflexivity. Qed.

(** ** Concatenating pages *)

Lemma mem_In (c : string) (cs : list string) : mem c cs = true <-> In c cs.
Proof.
  unfold mem. rewrite existsb_exists. split.
  - intros [x [Hx Heq]]. apply String.eqb_eq in Heq. subst. exact Hx.
  - intros H. exists c. split; [exact H | apply String.eqb_refl].
Qed.

Lemma mem_app (c : string) (l l' : list string) :
  mem c (l ++ l') = mem c l || mem c l'.
Proof. unfold mem. apply existsb_app. Qed.

Lemma mem_cons (c x : string) (l : list string) :
  mem c (x :: l) = (x =? c)%string || mem c l.
Proof. reflexivity. Qed.

Lemma mem_add_labels (c : string) (more seen : list string) :
  mem c (add_labels seen more) = mem c seen || mem c more.
Proof.
  revert seen. induction more as [|x more IH]; intros seen; cbn [add_labels].
  - cbn. rewrite orb_false_r. reflexivity.
  - rewrite mem_cons. destruct (mem x seen) eqn:E; rewrite IH.
    + destruct (String.eqb_spec x c) as [->|Hne]; cbn [orb]; [|reflexivity].
      rewrite E. reflexivity.
    + rewrite mem_app, mem_cons. cbn. rewrite orb_false_r, orb_assoc. reflexivity.
Qed.

Lemma add_labels_app (seen a b : list string) :
  add_labels seen (a ++ b) = add_labels (add_labels seen a) b.
Proof.
  revert seen. induction a as [|x a IH]; intros seen; cbn [add_labels app];
    [reflexivity|].
  destruct (mem x seen); apply IH.
Qed.

(** Adding a union of labels is adding the labels it was made from. *)
Lemma add_labels_add_labels (a seen seen' : list string) :
  add_labels seen (add_labels seen' a) = add_labels (add_labels seen seen') a.
Proof.
  revert seen'. induction a as [|x a IH]; intros seen'; cbn [add_labels];
    [reflexivity|].
  rewrite (mem_add_labels x seen' seen).
  destruct (mem x seen') eqn:E.
  - rewrite IH, orb_true_r. reflexivity.
  - rewrite IH, add_labels_app, orb_false_r. cbn [add_labels].
    rewrite (mem_add_labels x seen' seen), E, orb_false_r.
    destruct (mem x seen); reflexivity.
Qed.

Lemma add_labels_fold (ls : list (list string)) (seen seen' : list string) :
  add_labels seen (fold_left add_labels ls seen')
  = fold_left add_labels ls (add_labels seen seen').
Proof.
  revert seen'. induction ls as [|l ls IH]; intros seen'; cbn [fold_left];
    [reflexivity|].
  rewrite IH, add_labels_add_labels. reflexivity.
Qed.

Lemma union_labels_concat (pages : list (list record)) (seen : list string) :
  fold_left add_labels
    (map (fun page => union_labels (map (map fst) page)) pages) seen
  = fold_left add_labels (map (map fst) (List.concat pages)) seen.
Proof.
  revert seen. induction pages as [|page pages IH]; intros seen; cbn [map List.concat fold_left];
    [reflexivity|].
  rewrite map_app, fold_left_app, IH. f_equal.
  unfold union_labels. rewrite add_labels_fold. reflexivity.
Qed.

Lemma mem_fold_add_labels (c : string) (ls : list (list string)) (seen : list string) :
  mem c (fold_left add_labels ls seen) = mem c seen || existsb (mem c) ls.
Proof.
  revert seen. induction ls as [|l ls IH]; intros seen; cbn [fold_left existsb].
  - rewrite orb_false_r. reflexivity.
  - rewrite IH, mem_add_labels, orb_assoc. reflexivity.
Qed.

Lemma dict_get_mem_keys {V : Type} (c : string) (d : list (string * V)) :
  mem c (map fst d) = is_some (dict_get c d).
Proof.
  induction d as [|[k v] d IH]; [reflexivity|].
  cbn [map fst dict_get]. rewrite mem_cons, IH.
  destruct (k =? c)%string; reflexivity.
Qed.

Lemma dict_get_combine_map {V : Type} (f : string -> V) (c : string) (l : list string) :
  dict_get c (combine l (map f l)) = if mem c l then Some (f c) else None.
Proof.
  induction l as [|x l IH]; [reflexivity|].
  cbn [map combine dict_get]. rewrite mem_cons.
  destruct (String.eqb_spec x c) as [->|Hne]; [reflexivity | exact IH].
Qed.

(** A row of a frame built from records, read back under the frame's
    columns, has the fields of its record. *)
Lemma field_row_record (page : list record) (r : record) (c : string) :
  In r page ->
  let cols := columns (DataFrame_of_records page) in
  field (row_record cols (map (field r) cols)) c = field r c.
Proof.
  intros Hr cols. unfold field at 1, row_record.
  rewrite dict_get_combine_map.
  destruct (mem c cols) eqn:E; [reflexivity|].
  unfold field. destruct (dict_get c r) eqn:G; [|reflexivity].
  exfalso. unfold cols, DataFrame_of_records, union_labels in E. cbn [columns] in E.
  rewrite mem_fold_add_labels in E. apply orb_false_elim in E as [_ E].
  assert (H : existsb (mem c) (map (map fst) page) = true).
  { apply existsb_exists. exists (map fst r). split.
    - apply in_map. exact Hr.
    - rewrite dict_get_mem_keys, G. reflexivity. }
  congruence.
Qed.

Lemma rows_realigned (cols : list string) (pages : list (list record)) :
  flat_map (fun df =>
      map (fun row => map (field (row_record (columns df) row)) cols) (rows df))
    (map DataFrame_of_records pages)
  = map (fun r => map (field r) cols) (List.concat pages).
Proof.
  induction pages as [|page pages IH]; [reflexivity|].
  cbn [map flat_map List.concat]. rewrite map_app, IH. f_equal.
  cbn [rows DataFrame_of_records]. rewrite map_map.
  apply map_ext_in. intros r Hr. apply map_ext. intros c.
  apply (field_row_record page r c Hr).
Qed.

(** Concatenating the frames of several pages gives the frame of the pages'
    records put end to end: same columns, same rows, same order. *)
Lemma pd_concat_of_records (pages : list (list record)) :
  pd_concat (map DataFrame_of_records pages)
  = DataFrame_of_records (List.concat pages).
Proof.
  assert (Hc : union_labels (map columns (map DataFrame_of_records pages))
               = union_labels (map (map fst) (List.concat pages))).
  { rewrite map_map. apply union_labels_concat. }
  unfold pd_concat. rewrite rows_realigned, Hc. reflexivity.
Qed.

(** ** The requests and pages of a collection *)

Section CollectorProperties.

Variable api : World -> Params -> http_outcome.
Variables (state applicant_type : option string) (batch_size : Z).

Local Abbreviation page_request := (page_request state applicant_type batch_size).
Local Abbreviation page_requests := (page_requests state applicant_type batch_size).
Local Abbreviation full_page := (full_page batch_size).
Local Abbreviation loop_end := (loop_end batch_size).
Local Abbreviation year_segment := (year_segment state applicant_type batch_size).
Local Abbreviation closed_segment := (closed_segment batch_size).
Local Abbreviation years_end := (years_end batch_size).

Lemma page_requests_S (year offset : Z) (n : nat) :
  page_requests year offset (S n)
  = page_request year offset :: page_requests year (offset + batch_size) n.
Proof.
  unfold page_requests. cbn [seq map]. f_equal.
  - f_equal. lia.
  - rewrite <- seq_shift, map_map. apply map_ext. intros k.
    f_equal. rewrite Nat2Z.inj_succ. ring.
Qed.

(** The loop of one year: it sends the requests of successive pages, goes
    on after full pages only, and stops at the first answer that is not
    one. *)
Lemma fetch_year_trace (year : Z) (fuel : nat) :
  forall (offset : Z) (all_data : list DataFrame) (w : World)
         (res : option (result (list DataFrame))) (w' : World),
    fetch_year api fuel year state applicant_type batch_size offset all_data w
    = (res, w') ->
    exists init tail,
      w' = w ++ init ++ tail
      /\ map fst (init ++ tail)
         = page_requests year offset (List.length (init ++ tail))
      /\ Forall (fun ex => full_page (snd ex) = true) init
      /\ loop_end fuel all_data init tail res.
Proof.
  induction fuel as [|fuel IH]; intros offset all_data w res w' Hrun.
  - cbn in Hrun. inversion Hrun; subst. exists [], [].
    rewrite app_nil_r. repeat split; constructor.
  - cbn [fetch_year] in Hrun. unfold fetch_data, session_get in Hrun.
    fold (page_request year offset) in Hrun.
    set (p := page_request year offset) in *.
    set (out := api w p) in *.
    destruct (receive out) as [df|e] eqn:Hrecv.
    + destruct (empty df) eqn:Hempty.
      { inversion Hrun; subst res w'. exists [], [(p, out)].
        split; [reflexivity|]. split; [cbn [app map fst List.length]; rewrite page_requests_S; reflexivity|].
        split; [constructor|].
        exists p, out, df. split; [reflexivity|]. split; [exact Hrecv|].
        unfold full_page, kept_frames, kept_frame. cbn. rewrite Hrecv, Hempty.
        split; [reflexivity|]. rewrite app_nil_r. reflexivity. }
      destruct (len df <? batch_size) eqn:Hshort.
      { inversion Hrun; subst res w'. exists [], [(p, out)].
        split; [reflexivity|]. split; [cbn [app map fst List.length]; rewrite page_requests_S; reflexivity|].
        split; [constructor|].
        exists p, out, df. split; [reflexivity|]. split; [exact Hrecv|].
        unfold full_page, kept_frames, kept_frame. cbn. rewrite Hrecv, Hempty.
        split; [|reflexivity].
        apply Z.ltb_lt in Hshort. cbn. apply Z.leb_gt. exact Hshort. }
      apply IH in Hrun as [init [tail [Hw [Hreq [Hfull Hend]]]]].
      exists ((p, out) :: init), tail.
      split; [rewrite Hw, <- app_assoc; reflexivity|].
      split.
      { cbn [app map fst List.length]. rewrite page_requests_S, Hreq. reflexivity. }
      assert (Hout : full_page out = true).
      { unfold full_page. rewrite Hrecv, Hempty. cbn.
        apply Z.leb_le. apply Z.ltb_ge in Hshort. exact Hshort. }
      split; [constructor; [exact Hout | exact Hfull]|].
      destruct res as [[all_data'|e]|]; cbn [loop_end] in *.
      * destruct Hend as [p' [out' [df' [Ht [Hr [Hf Hd]]]]]].
        exists p', out', df'. repeat split; trivial.
        rewrite Hd. unfold kept_frames. cbn [app flat_map snd].
        unfold kept_frame at 2. rewrite Hrecv, Hempty, <- app_assoc. reflexivity.
      * exact Hend.
      * destruct Hend as [Ht Hl]. split; [exact Ht|]. cbn. f_equal. exact Hl.
    + inversion Hrun; subst res w'. exists [], [(p, out)].
      split; [reflexivity|]. split; [cbn [app map fst List.length]; rewrite page_requests_S; reflexivity|].
      split; [constructor|].
      exists p, out. split; [reflexivity | exact Hrecv].
Qed.

Lemma kept_frames_app (seg seg' : list Exchange) :
  kept_frames (seg ++ seg') = kept_frames seg ++ kept_frames seg'.
Proof. unfold kept_frames. apply flat_map_app. Qed.

Lemma year_segment_of_trace (year : Z) (init tail : list Exchange)
    (fuel : nat) (all_data : list DataFrame)
    (res : option (result (list DataFrame))) :
  map fst (init ++ tail) = page_requests year 0 (List.length (init ++ tail)) ->
  Forall (fun ex => full_page (snd ex) = true) init ->
  loop_end fuel all_data init tail res ->
  year_segment year (init ++ tail).
Proof.
  intros Hreq Hfull Hend. split; [exact Hreq|].
  destruct res as [[d|e]|]; cbn [loop_end] in Hend.
  - destruct Hend as [p [out [df [-> _]]]]. rewrite removelast_last. exact Hfull.
  - destruct Hend as [p [out [-> _]]]. rewrite removelast_last. exact Hfull.
  - destruct Hend as [-> _]. rewrite app_nil_r.
    clear Hreq. induction Hfull as [|ex l Hex Hl IH]; [constructor|].
    destruct l as [|ex' l]; [constructor|].
    cbn [removelast] in *. constructor; [exact Hex | exact IH].
Qed.

(** The loop over the years: one segment of exchanges per year entered, in
    the order of the years; every year before the last one entered ended by
    [break]. *)
Lemma fetch_years_trace (fuel : nat) :
  forall (years : list Z) (all_data : list DataFrame) (w : World)
         (res : option (result (list DataFrame))) (w' : World),
    fetch_years api fuel years state applicant_type batch_size all_data w
    = (res, w') ->
    exists segs,
      w' = w ++ List.concat segs
      /\ Forall2 year_segment (firstn (List.length segs) years) segs
      /\ years_end fuel years all_data segs res.
Proof.
  induction years as [|year years IH]; intros all_data w res w' Hrun.
  - cbn in Hrun. inversion Hrun; subst. exists [].
    cbn. rewrite !app_nil_r. repeat split; constructor.
  - cbn [fetch_years] in Hrun.
    destruct (fetch_year api fuel year state applicant_type batch_size 0 all_data w)
      as [r1 w1] eqn:Hyear.
    apply fetch_year_trace in Hyear as [init [tail [Hw1 [Hreq [Hfull Hend]]]]].
    pose proof (year_segment_of_trace year init tail fuel all_data r1 Hreq Hfull Hend)
      as Hseg.
    destruct r1 as [[d1|e]|].
    + apply IH in Hrun as [segs [Hw' [Hsegs Hyears]]].
      cbn [loop_end] in Hend. destruct Hend as [p [out [df [Ht [Hr [Hf Hd]]]]]].
      assert (Hclosed : closed_segment (init ++ tail)).
      { exists init, p, out, df. rewrite Ht. repeat split; trivial. }
      exists ((init ++ tail) :: segs).
      split; [rewrite Hw', Hw1; cbn [List.concat]; rewrite <- !app_assoc; reflexivity|].
      split; [cbn [List.length firstn]; constructor; trivial|].
      destruct res as [[d'|e]|]; cbn [years_end] in *.
      * destruct Hyears as [Hlen [Hcl Hd']].
        split; [cbn; f_equal; exact Hlen|]. split; [constructor; trivial|].
        rewrite Hd', Hd. cbn [List.concat].
        rewrite (kept_frames_app (init ++ tail)), app_assoc. reflexivity.
      * destruct Hyears as [segs' [init' [p' [out' [Hs [Hcl He]]]]]].
        exists ((init ++ tail) :: segs'), init', p', out'.
        rewrite Hs. split; [reflexivity|]. split; [constructor; trivial | exact He].
      * destruct Hyears as [segs' [seg [Hs [Hcl [Hl Hfu]]]]].
        exists ((init ++ tail) :: segs'), seg.
        rewrite Hs. split; [reflexivity|]. split; [constructor; trivial|].
        split; trivial.
    + inversion Hrun; subst res w'. exists [init ++ tail].
      split; [cbn [List.concat]; rewrite app_nil_r; exact Hw1|].
      split; [cbn [List.length firstn]; constructor; [exact Hseg | constructor]|].
      cbn [loop_end years_end] in *. destruct Hend as [p [out [Ht He]]].
      exists [], init, p, out. rewrite Ht. repeat split; trivial.
    + inversion Hrun; subst res w'. exists [init ++ tail].
      split; [cbn [List.concat]; rewrite app_nil_r; exact Hw1|].
      split; [cbn [List.length firstn]; constructor; [exact Hseg | constructor]|].
      cbn [loop_end years_end] in *. destruct Hend as [Ht Hl].
      exists [], (init ++ tail). rewrite Ht, app_nil_r in *.
      repeat split; trivial.
Qed.

(** [fetch_all_years] is the loop over the years followed by the
    concatenation of what it gathered. *)
Lemma fetch_all_years_loops (fuel : nat) (start_year end_year : Z) (w : World)
    (res : option (result DataFrame)) (w' : World) :
  fetch_all_years api fuel start_year end_year state applicant_type batch_size w
  = (res, w') ->
  exists r,
    fetch_years api fuel (range start_year (end_year + 1)) state applicant_type
                batch_size [] w = (r, w')
    /\ res = match r with
             | Some (Ok []) => Some (Ok (DataFrame_of_records []))
             | Some (Ok all_data) => Some (Ok (pd_concat all_data))
             | Some (Raise e) => Some (Raise e)
             | None => None
             end.
Proof.
  unfold fetch_all_years. intros H.
  destruct (fetch_years api fuel (range start_year (end_year + 1)) state
              applicant_type batch_size [] w) as [r w1].
  exists r. destruct r as [[[|df all_data]|e]|]; inversion H; subst; split; reflexivity.
Qed.

Lemma Forall_removelast_nth {A : Type} (P : A -> Prop) (l : list A) :
  Forall P (removelast l) ->
  forall k x, nth_error l k = Some x -> (S k < List.length l)%nat -> P x.
Proof.
  induction l as [|a l IH]; intros H k x Hk Hlt; [destruct k; discriminate|].
  destruct l as [|b l]; [cbn in Hlt; lia|].
  cbn [removelast] in H. inversion H as [|? ? Ha Hl]; subst.
  destruct k as [|k]; cbn [nth_error] in Hk.
  - inversion Hk; subst. exact Ha.
  - apply (IH Hl k x Hk). cbn [List.length] in *. lia.
Qed.

Lemma Forall2_firstn_nth {A B : Type} (R : A -> B -> Prop) (l' : list B) :
  forall (l : list A),
    Forall2 R (firstn (List.length l') l) l' ->
    forall i a b, nth_error l i = Some a -> nth_error l' i = Some b -> R a b.
Proof.
  induction l' as [|b' l' IH]; intros l H i a b Ha Hb; [destruct i; discriminate|].
  destruct l as [|a' l]; [destruct i; discriminate|].
  cbn [List.length firstn] in H. inversion H; subst.
  destruct i as [|i]; cbn [nth_error] in *.
  - inversion Ha; inversion Hb; subst. assumption.
  - eapply IH; eassumption.
Qed.

Lemma Forall2_length_firstn {A B : Type} (R : A -> B -> Prop) (l : list A) (l' : list B) :
  Forall2 R (firstn (List.length l') l) l' -> (List.length l' <= List.length l)%nat.
Proof.
  intros H. apply Forall2_length in H. rewrite length_firstn in H. lia.
Qed.

Lemma full_page_rows (out : http_outcome) :
  full_page out = true ->
  exists df, receive out = Ok df /\ empty df = false /\ batch_size <= len df.
Proof.
  unfold full_page. destruct (receive out) as [df|e]; [|discriminate].
  intros H. apply andb_prop in H as [He Hl].
  exists df. split; [reflexivity|]. split.
  - destruct (empty df); [discriminate | reflexivity].
  - apply Z.leb_le. exact Hl.
Qed.

Lemma not_full_page (out : http_outcome) (df : DataFrame) :
  receive out = Ok df -> full_page out = false ->
  empty df = true \/ len df < batch_size.
Proof.
  unfold full_page. intros ->. destruct (empty df); [left; reflexivity|].
  cbn. intros H. right. apply Z.leb_gt. exact H.
Qed.

(** The [$limit] and [$offset] a request carries are the arguments of
    [fetch_data], whatever the filters. *)
Lemma request_params_limit_offset (funding_year : option Z)
    (st at_ : option string) (limit offset : Z) :
  dict_get "$limit" (request_params funding_year st at_ limit offset)
  = Some (PInt limit)
  /\ dict_get "$offset" (request_params funding_year st at_ limit offset)
     = Some (PInt offset).
Proof.
  unfold request_params. cbv zeta.
  destruct (where_clauses funding_year st at_); split; reflexivity.
Qed.

(** C3, as amended.  For every [batch_size > 0], whatever the API answers
    and however the call ends, [fetch_all_years] has exchanged with the API
    one run of requests per year, in the order of the years.  The requests
    of a year are those of its pages in this order: the request number k
    of the year carries [$limit = batch_size] and
    [$offset = k * batch_size], that is 0, [batch_size],
    2 * [batch_size], ...  A request is followed by another one of the same
    year only when its answer is a page whose frame is not empty and has at
    least [batch_size] records, so the requests of a year stop at the first
    answer with fewer, or with an empty frame; and the next offset then
    lies within that page's end.  When the call returns a
    table, every year of the range has had its requests, and the last
    answer of each year is a page with fewer than [batch_size] records, or
    one whose records have no field: the frame of such a page is empty and
    ends the year as well, however many records it has. *)
Theorem fetch_all_years_pagination (fuel : nat) (start_year end_year : Z)
    (w : World) (res : option (result DataFrame)) (w' : World) :
  0 < batch_size ->
  fetch_all_years api fuel start_year end_year state applicant_type batch_size w
  = (res, w') ->
  exists segs : list (list Exchange),
    w' = w ++ List.concat segs
    /\ (List.length segs <= List.length (range start_year (end_year + 1)))%nat
    /\ (forall i year seg,
          nth_error (range start_year (end_year + 1)) i = Some year ->
          nth_error segs i = Some seg ->
          map fst seg
          = map (fun k => request_params (Some year) state applicant_type
                            batch_size (Z.of_nat k * batch_size))
                (seq 0 (List.length seg))
          /\ (forall k p out,
                nth_error seg k = Some (p, out) ->
                dict_get "$limit" p = Some (PInt batch_size)
                /\ dict_get "$offset" p = Some (PInt (Z.of_nat k * batch_size)))
          /\ forall k p out,
               nth_error seg k = Some (p, out) ->
               (S k < List.length seg)%nat ->
               exists df,
                 receive out = Ok df
                 /\ empty df = false
                 /\ batch_size <= len df
                 /\ Z.of_nat (S k) * batch_size
                    <= Z.of_nat k * batch_size + len df)
    /\ (forall table, res = Some (Ok table) ->
          List.length segs = List.length (range start_year (end_year + 1))
          /\ forall seg, In seg segs ->
               exists init p out df,
                 seg = init ++ [(p, out)]
                 /\ receive out = Ok df
                 /\ (len df < batch_size \/ columns df = [])).
Proof.
  intros Hpos Hrun.
  apply fetch_all_years_loops in Hrun as [r [Hrun Hres]].
  apply fetch_years_trace in Hrun as [segs [Hw [Hsegs Hend]]].
  exists segs. split; [exact Hw|].
  split; [exact (Forall2_length_firstn _ _ _ Hsegs)|].
  split.
  - intros i year seg Hyear Hseg.
    destruct (Forall2_firstn_nth _ _ _ Hsegs i year seg Hyear Hseg) as [Hreq Hfull].
    assert (Hmap : map fst seg
                   = map (fun k => request_params (Some year) state applicant_type
                                     batch_size (Z.of_nat k * batch_size))
                         (seq 0 (List.length seg))).
    { rewrite Hreq. unfold page_requests, page_request.
      apply map_ext. intros k. f_equal. }
    split; [exact Hmap|]. split.
    + intros k p out Hk.
      pose proof (map_nth_error fst k seg Hk) as Hp. cbn [fst] in Hp.
      assert (Hlt : (k < List.length seg)%nat)
        by (apply nth_error_Some; congruence).
      rewrite Hmap, nth_error_map, nth_error_seq in Hp.
      destruct (Nat.ltb_spec k (List.length seg)) as [_|Hge]; [|lia].
      cbn in Hp. inversion Hp; subst p.
      apply request_params_limit_offset.
    + intros k p out Hk Hlt.
      pose proof (Forall_removelast_nth _ _ Hfull k (p, out) Hk Hlt) as Hf.
      cbn [snd] in Hf. apply full_page_rows in Hf as [df [Hr [He Hl]]].
      exists df. split; [exact Hr|]. split; [exact He|]. split; [exact Hl|].
      rewrite Nat2Z.inj_succ. lia.
  - intros table ->.
    destruct r as [[all_data|e]|]; [|discriminate Hres|discriminate Hres].
    cbn [years_end] in Hend. destruct Hend as [Hlen [Hcl _]].
    split; [exact Hlen|].
    intros seg Hin. rewrite Forall_forall in Hcl.
    destruct (Hcl seg Hin) as [init [p [out [df [Hs [Hr Hf]]]]]].
    exists init, p, out, df. split; [exact Hs|]. split; [exact Hr|].
    destruct (not_full_page out df Hr Hf) as [He|Hl]; [|left; exact Hl].
    unfold empty in He. unfold len.
    destruct (rows df); [left; cbn; lia|].
    destruct (columns df); [right; reflexivity | discriminate He].
Qed.

Lemma Forall2_right {A B : Type} (R : A -> B -> Prop) (l : list A) (l' : list B) :
  Forall2 R l l' -> Forall (fun b => exists a, R a b) l'.
Proof.
  induction 1 as [|a b l l' Hab _ IH]; constructor; [exists a; exact Hab | exact IH].
Qed.

(** In the exchanges of a year whose loop ended by [break], every request
    was answered by a page. *)
Lemma closed_segment_received (year : Z) (seg : list Exchange) :
  year_segment year seg -> closed_segment seg ->
  forall p out, In (p, out) seg -> exists df, receive out = Ok df.
Proof.
  intros [_ Hfull] [init [p' [out' [df' [-> [Hr _]]]]]] p out Hin.
  rewrite removelast_last in Hfull. apply in_app_or in Hin as [Hin|[Heq|[]]].
  - rewrite Forall_forall in Hfull. specialize (Hfull _ Hin). cbn [snd] in Hfull.
    apply full_page_rows in Hfull as [df [Hdf _]]. exists df. exact Hdf.
  - inversion Heq; subst. exists df'. exact Hr.
Qed.

(** A request answered by something [fetch_data] raises on ends the whole
    call with that exception. *)
Lemma fetch_all_years_raises (fuel : nat) (start_year end_year : Z)
    (w : World) (res : option (result DataFrame)) (w' new : World)
    (p : Params) (out : http_outcome) (e : exn) :
  fetch_all_years api fuel start_year end_year state applicant_type batch_size w
  = (res, w') ->
  w' = w ++ new ->
  In (p, out) new ->
  receive out = Raise e ->
  res = Some (Raise e).
Proof.
  intros Hrun Hnew Hin Hrecv.
  apply fetch_all_years_loops in Hrun as [r [Hrun Hres]].
  apply fetch_years_trace in Hrun as [segs [Hw [Hsegs Hend]]].
  rewrite Hw in Hnew. apply app_inv_head in Hnew. subst new.
  apply Forall2_right in Hsegs. rewrite Forall_forall in Hsegs.
  apply in_concat in Hin as [seg [Hseg Hin]].
  assert (Hclosed : closed_segment seg -> False).
  { intros Hc. destruct (Hsegs seg Hseg) as [year Hy].
    destruct (closed_segment_received year seg Hy Hc p out Hin) as [df Hdf].
    congruence. }
  destruct r as [[all_data|e']|]; cbn [years_end] in Hend.
  - destruct Hend as [_ [Hcl _]]. rewrite Forall_forall in Hcl.
    destruct (Hclosed (Hcl seg Hseg)).
  - destruct Hend as [segs' [init [p' [out' [Hs [Hcl He']]]]]].
    rewrite Forall_forall in Hcl. subst segs.
    destruct (Hsegs seg Hseg) as [year [_ Hfull]].
    apply in_app_or in Hseg as [Hseg|[Heq|[]]]; [destruct (Hclosed (Hcl seg Hseg))|].
    subst seg. rewrite removelast_last in Hfull.
    apply in_app_or in Hin as [Hin|[Heq|[]]].
    + rewrite Forall_forall in Hfull. specialize (Hfull _ Hin). cbn [snd] in Hfull.
      apply full_page_rows in Hfull as [df [Hdf _]]. congruence.
    + inversion Heq; subst. rewrite Hrecv in He'. inversion He'; subst. reflexivity.
  - destruct Hend as [segs' [seg' [Hs [Hcl [_ Hfull]]]]].
    rewrite Forall_forall in Hcl. subst segs.
    apply in_app_or in Hseg as [Hseg|[Heq|[]]]; [destruct (Hclosed (Hcl seg Hseg))|].
    subst seg'. rewrite Forall_forall in Hfull. specialize (Hfull _ Hin).
    cbn [snd] in Hfull. apply full_page_rows in Hfull as [df [Hdf _]]. congruence.
Qed.

Lemma kept_frame_page (out : http_outcome) :
  kept_frame out = map DataFrame_of_records (kept_page out).
Proof.
  unfold kept_frame, kept_page, nonempty_pages, received_page, receive, json.
  destruct out as [e|r]; [reflexivity|].
  destruct (raise_for_status r); [|reflexivity].
  destruct (body r) as [data|]; [|reflexivity].
  cbn [filter]. destruct (empty (DataFrame_of_records data)); reflexivity.
Qed.

Lemma kept_frames_pages (exchanges : list Exchange) :
  kept_frames exchanges = map DataFrame_of_records (kept_pages exchanges).
Proof.
  unfold kept_frames, kept_pages.
  induction exchanges as [|ex l IH]; [reflexivity|].
  cbn [flat_map]. rewrite map_app, IH, kept_frame_page. reflexivity.
Qed.

(** The table [fetch_all_years] makes of the frames it has gathered. *)
Lemma result_table_of_pages (pages : list (list record)) :
  match map DataFrame_of_records pages with
  | [] => DataFrame_of_records []
  | all_data => pd_concat all_data
  end = DataFrame_of_records (List.concat pages).
Proof.
  destruct pages as [|page pages]; [reflexivity|].
  apply (pd_concat_of_records (page :: pages)).
Qed.

(** C7, as amended.  Whatever the API answers, [fetch_all_years] has
    exchanged with it one run of requests per year, in ascending order of
    the years and, within a year, of the offsets.  When the call returns a
    table, every year of the range has had its run, and the table is the
    frame of the records of all the pages received whose frame is not empty
    (a page with no record, or whose records have no field, is left out),
    put end to end in the order the pages were received, each page's
    records in the order of the answer: its rows are these records, one row
    per record, in that order.  No table is returned only when a request
    raised, or when the API has answered [fuel] requests of one year in a
    row with full pages. *)
Theorem fetch_all_years_concatenates (fuel : nat) (start_year end_year : Z)
    (w : World) (res : option (result DataFrame)) (w' : World) :
  fetch_all_years api fuel start_year end_year state applicant_type batch_size w
  = (res, w') ->
  exists segs : list (list Exchange),
    w' = w ++ List.concat segs
    /\ (forall i year seg,
          nth_error (range start_year (end_year + 1)) i = Some year ->
          nth_error segs i = Some seg ->
          map fst seg
          = map (fun k => request_params (Some year) state applicant_type
                            batch_size (Z.of_nat k * batch_size))
                (seq 0 (List.length seg)))
    /\ match res with
       | Some (Ok table) =>
           List.length segs = List.length (range start_year (end_year + 1))
           /\ table
              = DataFrame_of_records (List.concat (kept_pages (List.concat segs)))
           /\ rows table
              = map (fun r => map (field r) (columns table))
                    (List.concat (kept_pages (List.concat segs)))
       | Some (Raise e) =>
           exists init p out,
             List.concat segs = init ++ [(p, out)] /\ receive out = Raise e
       | None =>
           exists init seg,
             List.concat segs = init ++ seg
             /\ List.length seg = fuel
             /\ Forall (fun ex => full_page (snd ex) = true) seg
       end.
Proof.
  intros Hrun.
  apply fetch_all_years_loops in Hrun as [r [Hrun Hres]].
  apply fetch_years_trace in Hrun as [segs [Hw [Hsegs Hend]]].
  exists segs. split; [exact Hw|]. split.
  - intros i year seg Hyear Hseg.
    destruct (Forall2_firstn_nth _ _ _ Hsegs i year seg Hyear Hseg) as [Hreq _].
    rewrite Hreq. unfold page_requests, page_request.
    apply map_ext. intros k. f_equal.
  - destruct r as [[all_data|e]|]; cbn [years_end] in Hend.
    + destruct Hend as [Hlen [_ Hdata]]. cbn [app] in Hdata.
      rewrite kept_frames_pages in Hdata.
      assert (Htable : res = Some (Ok (DataFrame_of_records
                         (List.concat (kept_pages (List.concat segs)))))).
      { rewrite Hres, <- result_table_of_pages, <- Hdata.
        destruct all_data; reflexivity. }
      rewrite Htable. split; [exact Hlen|]. split; reflexivity.
    + subst res. destruct Hend as [segs' [init [p [out [Hs [_ He]]]]]].
      exists (List.concat segs' ++ init), p, out. split; [|exact He].
      rewrite Hs, concat_app. cbn [List.concat].
      rewrite app_nil_r, app_assoc. reflexivity.
    + subst res. destruct Hend as [segs' [seg [Hs [_ [Hl Hfull]]]]].
      exists (List.concat segs'), seg. split; [|split; trivial].
      rewrite Hs, concat_app. cbn [List.concat]. rewrite app_nil_r. reflexivity.
Qed.

(** C5.  If any request that [fetch_all_years] has sent was answered by
    something [fetch_data] raises on, the call raises that very exception:
    it returns no table, whatever pages and years came before. *)
Theorem fetch_all_years_all_or_nothing (fuel : nat) (start_year end_year : Z)
    (w new : World) (p : Params) (out : http_outcome) (e : exn) :
  snd (fetch_all_years api fuel start_year end_year state applicant_type
         batch_size w) = w ++ new ->
  In (p, out) new ->
  receive out = Raise e ->
  fst (fetch_all_years api fuel start_year end_year state applicant_type
         batch_size w) = Some (Raise e).
Proof.
  destruct (fetch_all_years api fuel start_year end_year state applicant_type
              batch_size w) as [res w'] eqn:Hrun.
  cbn [fst snd]. intros Hnew Hin Hrecv.
  exact (fetch_all_years_raises fuel start_year end_year w res w' new p out e
           Hrun Hnew Hin Hrecv).
Qed.

(** More fuel does not change how a loop that has ended has ended. *)
Lemma fetch_year_more_fuel (year : Z) (fuel : nat) :
  forall (fuel' : nat) (offset : Z) (all_data : list DataFrame) (w : World)
         (r : result (list DataFrame)) (w' : World),
    (fuel <= fuel')%nat ->
    fetch_year api fuel year state applicant_type batch_size offset all_data w
    = (Some r, w') ->
    fetch_year api fuel' year state applicant_type batch_size offset all_data w
    = (Some r, w').
Proof.
  induction fuel as [|fuel IH]; intros fuel' offset all_data w r w' Hle Hrun;
    [discriminate Hrun|].
  destruct fuel' as [|fuel']; [lia|].
  cbn [fetch_year] in *.
  destruct (fetch_data api (Some year) state applicant_type batch_size offset w)
    as [[df|e] w1]; [|exact Hrun].
  destruct (empty df); [exact Hrun|].
  destruct (len df <? batch_size); [exact Hrun|].
  apply IH; [lia | exact Hrun].
Qed.

Lemma fetch_years_more_fuel (fuel fuel' : nat) :
  (fuel <= fuel')%nat ->
  forall (years : list Z) (all_data : list DataFrame) (w : World)
         (r : result (list DataFrame)) (w' : World),
    fetch_years api fuel years state applicant_type batch_size all_data w
    = (Some r, w') ->
    fetch_years api fuel' years state applicant_type batch_size all_data w
    = (Some r, w').
Proof.
  intros Hle. induction years as [|year years IH]; intros all_data w r w' Hrun;
    [exact Hrun|].
  cbn [fetch_years] in *.
  destruct (fetch_year api fuel year state applicant_type batch_size 0 all_data w)
    as [[r1|] w1] eqn:Hyear.
  - rewrite (fetch_year_more_fuel year fuel fuel' 0 all_data w r1 w1 Hle Hyear).
    destruct r1 as [d1|e]; [apply IH; exact Hrun | exact Hrun].
  - discriminate Hrun.
Qed.

(** Once [fetch_all_years] returns or raises with some fuel, it does the
    same with any larger fuel: the bound on the loops is not seen in the
    result. *)
Lemma fetch_all_years_more_fuel (fuel fuel' : nat) (start_year end_year : Z)
    (w : World) (r : result DataFrame) (w' : World) :
  (fuel <= fuel')%nat ->
  fetch_all_years api fuel start_year end_year state applicant_type batch_size w
  = (Some r, w') ->
  fetch_all_years api fuel' start_year end_year state applicant_type batch_size w
  = (Some r, w').
Proof.
  intros Hle. unfold fetch_all_years.
  destruct (fetch_years api fuel (range start_year (end_year + 1)) state
              applicant_type batch_size [] w) as [[r1|] w1] eqn:Hyears.
  - rewrite (fetch_years_more_fuel fuel fuel' Hle _ _ _ _ _ Hyears). trivial.
  - discriminate.
Qed.

End CollectorProperties.

(** *** Collections against a scripted API *)

Example two_years_run :
  fetch_all_years (script_api two_years) 3 2023 2024 None None 2 []
  = (Some (Ok two_years_table), two_years_history).
Proof. vm_compute. reflexivity. Qed.

Lemma fetch_all_years_pagination_witness :
  0 < 2
  /\ fetch_all_years (script_api two_years) 3 2023 2024 None None 2 []
     = (Some (Ok two_years_table), two_years_history)
  /\ exists segs : list (list Exchange),
       two_years_history = [] ++ List.concat segs
       /\ List.length segs = List.length (range 2023 (2024 + 1)).
Proof.
  split; [lia|]. split; [vm_compute; reflexivity|].
  destruct (fetch_all_years_pagination (script_api two_years) None None 2
              3 2023 2024 [] (Some (Ok two_years_table)) two_years_history)
    as [segs [Hw [_ [_ Hdone]]]]; [lia | vm_compute; reflexivity|].
  exists segs. split; [exact Hw|].
  exact (proj1 (Hdone two_years_table eq_refl)).
Defined.

(** C3 as it is stated fails: with [batch_size = 1] the API answers the
    first request with one record that has no field.  That is a page of
    [batch_size] records, not of fewer, and yet the requests of the year
    stop there: the frame of the page has a row and no column, so
    [df_batch.empty] holds and the loop breaks. *)
Lemma fetch_all_years_stops_on_fieldless_page :
  ~ (forall (api : World -> Params -> http_outcome) (fuel : nat)
            (start_year end_year : Z) (state applicant_type : option string)
            (batch_size : Z) (w : World) (table : DataFrame) (w' : World)
            (init : list Exchange) (p : Params) (out : http_outcome)
            (data : list record),
        0 < batch_size ->
        fetch_all_years api fuel start_year end_year state applicant_type
                        batch_size w = (Some (Ok table), w') ->
        w' = w ++ init ++ [(p, out)] ->
        received_page out = [data] ->
        Z.of_nat (List.length data) < batch_size).
Proof.
  intros H.
  specialize (H (script_api [page [[]]]) 1%nat 2024 2024 None None 1 []
                (DataFrame_of_records [])
                [(request_params (Some 2024) None None 1 0, page [[]])]
                [] (request_params (Some 2024) None None 1 0) (page [[]]) [[]]
                eq_refl eq_refl eq_refl eq_refl).
  discriminate H.
Qed.

Lemma fetch_all_years_concatenates_witness :
  fetch_all_years (script_api two_years) 3 2023 2024 None None 2 []
  = (Some (Ok two_years_table), two_years_history)
  /\ exists segs : list (list Exchange),
       two_years_history = [] ++ List.concat segs
       /\ two_years_table
          = DataFrame_of_records (List.concat (kept_pages (List.concat segs))).
Proof.
  split; [vm_compute; reflexivity|].
  destruct (fetch_all_years_concatenates (script_api two_years) None None 2
              3 2023 2024 [] (Some (Ok two_years_table)) two_years_history)
    as [segs [Hw [_ [_ [Htable _]]]]]; [vm_compute; reflexivity|].
  exists segs. split; [exact Hw | exact Htable].
Defined.

Lemma fetch_all_years_all_or_nothing_witness :
  snd (fetch_all_years (script_api page_then_timeout) 3 2023 2024 None None 2 [])
  = [] ++ [(request_params (Some 2023) None None 2 0,
            page [school "School A" "2023"; school "School B" "2023"]);
           (request_params (Some 2023) None None 2 2, Failed Timeout)]
  /\ fst (fetch_all_years (script_api page_then_timeout) 3 2023 2024 None None 2 [])
     = Some (Raise (RequestException Timeout)).
Proof.
  split; [vm_compute; reflexivity|].
  apply (fetch_all_years_all_or_nothing (script_api page_then_timeout) None None 2
           3 2023 2024 []
           [(request_params (Some 2023) None None 2 0,
             page [school "School A" "2023"; school "School B" "2023"]);
            (request_params (Some 2023) None None 2 2, Failed Timeout)]
           (request_params (Some 2023) None None 2 2) (Failed Timeout)
           (RequestException Timeout)).
  - vm_compute. reflexivity.
  - right. left. reflexivity.
  - reflexivity.
Defined.

(** C7 as it is stated fails: the API answers with one record that has no
    field.  The frame of that page has a row and no column, so it counts as
    empty: the loop ends and the record is in no table. *)
Lemma fetch_all_years_drops_fieldless_records :
  ~ (forall (api : World -> Params -> http_outcome) (fuel : nat)
            (start_year end_year : Z) (state applicant_type : option string)
            (batch_size : Z) (w : World) (table : DataFrame) (w' new : World),
        fetch_all_years api fuel start_year end_year state applicant_type
                        batch_size w = (Some (Ok table), w') ->
        w' = w ++ new ->
        table = DataFrame_of_records
                  (List.concat (flat_map (fun ex => received_page (snd ex)) new))).
Proof.
  intros H.
  specialize (H (script_api [page [[]]]) 1%nat 2024 2024 None None 1000 []
                (DataFrame_of_records [])
                [(request_params (Some 2024) None None 1000 0, page [[]])]
                [(request_params (Some 2024) None None 1000 0, page [[]])]
                eq_refl eq_refl).
  discriminate H.
Qed.

(** *** Enough fuel gives the table *)

Lemma script_api_next (pre rest : list http_outcome) (out : http_outcome)
    (w : World) (p : Params) :
  List.length w = List.length pre ->
  script_api (pre ++ out :: rest) w p = out.
Proof.
  intros H. unfold script_api. rewrite H, app_nth2, Nat.sub_diag by lia.
  reflexivity.
Qed.

Section Scripted.

Variables (state applicant_type : option string) (batch_size : Z).

Lemma fetch_year_script (year : Z) (last : list record) (rest : list http_outcome) :
  full_page batch_size (page last) = false ->
  forall (fulls : list (list record)) (pre : list http_outcome) (w : World)
         (fuel : nat) (offset : Z) (all_data : list DataFrame),
    List.length w = List.length pre ->
    Forall (fun data => full_page batch_size (page data) = true) fulls ->
    (List.length fulls < fuel)%nat ->
    exists seg,
      fetch_year (script_api (pre ++ map page fulls ++ page last :: rest))
                 fuel year state applicant_type batch_size offset all_data w
      = (Some (Ok (all_data
                   ++ map DataFrame_of_records (nonempty_pages (fulls ++ [last])))),
         w ++ seg)
      /\ List.length seg = List.length (map page fulls ++ [page last]).
Proof.
  intros Hlast. induction fulls as [|data fulls IH];
    intros pre w fuel offset all_data Hw Hfulls Hfuel;
    (destruct fuel as [|fuel]; [cbn in Hfuel; lia|]);
    cbn [fetch_year]; unfold fetch_data, session_get; cbn [map app].
  - rewrite (script_api_next pre rest (page last) w _ Hw).
    change (receive (page last)) with (Ok (DataFrame_of_records last)).
    unfold full_page in Hlast.
    change (receive (page last)) with (Ok (DataFrame_of_records last)) in Hlast.
    cbv beta iota in Hlast.
    unfold nonempty_pages. cbn [filter].
    destruct (empty (DataFrame_of_records last)) eqn:Hempty; cbn [negb map].
    + eexists. split; [rewrite app_nil_r; reflexivity | reflexivity].
    + cbn [negb andb] in Hlast.
      apply Z.leb_gt in Hlast. apply Z.ltb_lt in Hlast.
      rewrite Hlast. eexists. split; reflexivity.
  - inversion Hfulls as [|? ? Hdata Hrest]; subst.
    rewrite (script_api_next pre _ (page data) w _ Hw).
    change (receive (page data)) with (Ok (DataFrame_of_records data)).
    apply full_page_rows in Hdata as [df [Hdf [Hempty Hlen]]].
    change (receive (page data)) with (Ok (DataFrame_of_records data)) in Hdf.
    inversion Hdf; subst df. rewrite Hempty.
    apply Z.ltb_ge in Hlen. rewrite Hlen.
    destruct (IH (pre ++ [page data])
                 (w ++ [(request_params (Some year) state applicant_type
                           batch_size offset, page data)])
                 fuel (offset + batch_size)
                 (all_data ++ [DataFrame_of_records data]))
      as [seg [Hrun Hseg]].
    { rewrite !length_app, Hw. reflexivity. }
    { exact Hrest. }
    { cbn in Hfuel. lia. }
    rewrite <- app_assoc in Hrun. cbn [app] in Hrun. rewrite Hrun.
    eexists. split.
    + unfold nonempty_pages. cbn [app filter]. rewrite Hempty. cbn [negb map].
      rewrite <- !app_assoc. reflexivity.
    + cbn [List.length app]. rewrite Hseg. reflexivity.
Qed.

Lemma fetch_years_script (fuel : nat) (rest : list http_outcome) :
  forall (parts : list year_pages) (years : list Z) (pre : list http_outcome)
         (w : World) (all_data : list DataFrame),
    List.length parts = List.length years ->
    List.length w = List.length pre ->
    Forall (well_paged batch_size) parts ->
    Forall (fun part => (List.length (fst part) < fuel)%nat) parts ->
    exists seg,
      fetch_years (script_api (pre ++ script_of parts ++ rest))
                  fuel years state applicant_type batch_size all_data w
      = (Some (Ok (all_data
                   ++ map DataFrame_of_records
                        (nonempty_pages (flat_map pages_of parts)))),
         w ++ seg)
      /\ List.length seg = List.length (script_of parts).
Proof.
  induction parts as [|[fulls last] parts IH];
    intros years pre w all_data Hlen Hw Hparts Hfuel;
    destruct years as [|year years]; try discriminate Hlen.
  - exists []. cbn. rewrite !app_nil_r. split; reflexivity.
  - inversion Hparts as [|? ? [Hfulls Hlast] Hparts']; subst.
    inversion Hfuel as [|? ? Hf Hfuel']; subst. cbn [fst snd] in *.
    destruct (fetch_year_script year last (script_of parts ++ rest) Hlast
                fulls pre w fuel 0 all_data Hw Hfulls Hf) as [seg [Hrun Hseg]].
    destruct (IH years (pre ++ map page fulls ++ [page last]) (w ++ seg)
                (all_data ++ map DataFrame_of_records (nonempty_pages (fulls ++ [last]))))
      as [seg' [Hrun' Hseg']].
    { cbn in Hlen. lia. }
    { rewrite !length_app, Hw, Hseg, length_app. reflexivity. }
    { exact Hparts'. }
    { exact Hfuel'. }
    assert (Hscript : pre ++ script_of (@cons year_pages (fulls, last) parts) ++ rest
                      = pre ++ map page fulls ++ page last :: script_of parts ++ rest).
    { unfold script_of, pages_of. cbn [flat_map fst snd].
      rewrite map_app. cbn [map]. rewrite <- !app_assoc. reflexivity. }
    assert (Hscript' : (pre ++ map page fulls ++ [page last]) ++ script_of parts ++ rest
                       = pre ++ map page fulls ++ page last :: script_of parts ++ rest).
    { rewrite <- !app_assoc. reflexivity. }
    exists (seg ++ seg'). split.
    + cbn [fetch_years]. rewrite Hscript, Hrun. rewrite Hscript' in Hrun'. rewrite Hrun'.
      cbn [flat_map]. unfold pages_of at 2. cbn [fst snd].
      unfold nonempty_pages. f_equal.
      * do 2 f_equal. rewrite (filter_app _ (fulls ++ [last])), map_app, app_assoc.
        reflexivity.
      * rewrite app_assoc. reflexivity.
    + rewrite length_app, Hseg, Hseg'. unfold script_of, pages_of.
      cbn [flat_map fst snd]. rewrite map_app, !length_app. reflexivity.
Qed.

(** With an API that holds, for each year of the range, pages cut as the
    loop expects them, and with more fuel than any year has full pages,
    [fetch_all_years] returns a table: the frame of the records of the
    pages whose frame is not empty, in the order of the years and of the
    pages. *)
Lemma fetch_all_years_returns (fuel : nat) (start_year end_year : Z)
    (parts : list year_pages) :
  List.length parts = List.length (range start_year (end_year + 1)) ->
  Forall (well_paged batch_size) parts ->
  Forall (fun part => (List.length (fst part) < fuel)%nat) parts ->
  fst (fetch_all_years (script_api (script_of parts)) fuel start_year end_year
         state applicant_type batch_size [])
  = Some (Ok (DataFrame_of_records
                (List.concat (nonempty_pages (flat_map pages_of parts))))).
Proof.
  intros Hlen Hparts Hfuel. unfold fetch_all_years.
  destruct (fetch_years_script fuel [] parts (range start_year (end_year + 1))
              [] [] [] Hlen eq_refl Hparts Hfuel) as [seg [Hrun _]].
  cbn [app] in Hrun. rewrite app_nil_r in Hrun. rewrite Hrun.
  rewrite <- result_table_of_pages.
  destruct (map DataFrame_of_records (nonempty_pages (flat_map pages_of parts)));
    reflexivity.
Qed.

End Scripted.

(** ** Saving a table *)

Lemma upto_last_sep_no_sep (p : string) :
  has_sep p = false -> upto_last_sep p = "".
Proof.
  destruct p as [|c rest]; cbn; [reflexivity|].
  intros H. apply orb_false_elim in H as [Hc Hrest].
  rewrite Hrest, Hc. reflexivity.
Qed.

Lemma dirname_no_sep (p : string) : has_sep p = false -> dirname p = "".
Proof.
  intros H. unfold dirname. rewrite (upto_last_sep_no_sep p H). reflexivity.
Qed.

(** C10.  For every path with no directory component (no separator in it),
    [save_data] raises the [FileNotFoundError] of [os.makedirs('')] and
    leaves the file system as it was: nothing is written. *)
Theorem save_data_bare_filename_raises (format_number : Qc -> string)
    (df : DataFrame) (output_path : string) (fs : FileSystem) :
  has_sep output_path = false ->
  save_data format_number df output_path fs
  = (Raise (OSError (FileNotFoundError "")), fs).
Proof.
  intros H. unfold save_data. rewrite (dirname_no_sep _ H). reflexivity.
Qed.

Lemma save_data_bare_filename_raises_witness :
  has_sep "out.csv" = false
  /\ save_data (fun _ => "") col1_table "out.csv" (mkFileSystem [] [])
     = (Raise (OSError (FileNotFoundError "")), mkFileSystem [] []).
Proof.
  split; [reflexivity|].
  apply (save_data_bare_filename_raises (fun _ => "") col1_table "out.csv"
           (mkFileSystem [] [])).
  reflexivity.
Defined.

(** C8, at the input where the code departs from it.  The working directory
    is writable and [out.csv] has no parent directory to create, yet
    [save_data] raises and the file system holds no [out.csv] afterwards. *)
Theorem save_data_out_csv_not_written (format_number : Qc -> string)
    (df : DataFrame) :
  let fs := mkFileSystem [] [] in
  fst (save_data format_number df "out.csv" fs)
  = Raise (OSError (FileNotFoundError ""))
  /\ isfile "out.csv" (snd (save_data format_number df "out.csv" fs)) = false
  /\ fst (to_csv format_number df "out.csv" fs) = Ok tt.
Proof. repeat split; reflexivity. Qed.

(** ** The cases of the test suite *)

(** [test_fetch_data_success]: one row, and the entity name as it came. *)
Example test_fetch_data_success :
  exists df,
    fst (fetch_data (script_api [page [test_record]]) (Some 2024) None None 1 0 [])
    = Ok df
    /\ len df = 1
    /\ column "entity_name" df = [Str "Test School District"].
Proof. eexists. repeat split; reflexivity. Qed.

(** [test_fetch_data_with_filters]: the three clauses are in [$where]. *)
Example test_fetch_data_with_filters :
  dict_get "$where" (request_params (Some 2024) (Some "CA") (Some "Library") 100 0)
  = Some (PStr "funding_year = 2024 AND state = 'CA' AND applicant_type = 'Library'").
Proof. reflexivity. Qed.

(** [test_get_summary_stats_empty] *)
Example test_get_summary_stats_empty :
  fst (get_summary_stats sorted_uniform parse_integer (DataFrame_of_records []))
  = Ok [].
Proof. reflexivity. Qed.

(** [test_get_summary_stats] *)
Example test_get_summary_stats :
  exists stats,
    fst (get_summary_stats sorted_uniform parse_integer test_table) = Ok stats
    /\ dict_get "total_records" stats = Some (SInt 3)
    /\ dict_get "states" stats = Some (SInt 2)
    /\ dict_get "unique_entities" stats = Some (SInt 2)
    /\ dict_get "applicant_types" stats
       = Some (SDict [(Str "School", 2); (Str "Library", 1)]).
Proof. eexists. repeat split; vm_compute; reflexivity. Qed.

(** [test_save_data]: the directories are made, then the file is written. *)
Example test_save_data :
  exists text,
    save_data (fun _ => "") col1_table "./data/raw/test.csv" (mkFileSystem [] [])
    = (Ok tt, {| dirs := ["."; "./data"; "./data/raw"];
                 files := [("./data/raw/test.csv", text)] |}).
Proof. eexists. vm_compute. reflexivity. Qed.

(** * Further properties *)

(** ** Tables made from records *)

Lemma add_labels_NoDup (more seen : list string) :
  NoDup seen -> NoDup (add_labels seen more).
Proof.
  revert seen. induction more as [|c more IH]; intros seen H; cbn [add_labels];
    [exact H|].
  destruct (mem c seen) eqn:E; apply IH; [exact H|].
  apply NoDup_app; [exact H | repeat constructor; intros [] |].
  intros x Hx [<-|[]]. apply mem_In in Hx. congruence.
Qed.

Lemma union_labels_NoDup (ls : list (list string)) : NoDup (union_labels ls).
Proof.
  unfold union_labels. generalize (NoDup_nil string).
  generalize (@nil string) as seen.
  induction ls as [|l ls IH]; intros seen H; cbn [fold_left]; [exact H|].
  apply IH, add_labels_NoDup, H.
Qed.

Lemma DataFrame_of_records_well_formed (data : list record) :
  well_formed (DataFrame_of_records data).
Proof.
  split; cbn [columns rows DataFrame_of_records].
  - apply union_labels_NoDup.
  - apply Forall_forall. intros row Hrow.
    apply in_map_iff in Hrow as [r [<- _]]. apply length_map.
Qed.





(** X2.  Every table [fetch_all_years] returns is well formed, and it has
    one row for each record of the pages the call has kept. *)
Theorem fetch_all_years_table_well_formed (api : World -> Params -> http_outcome)
    (state applicant_type : option string) (batch_size : Z) (fuel : nat)
    (start_year end_year : Z) (w w' new : World) (table : DataFrame) :
  fetch_all_years api fuel start_year end_year state applicant_type batch_size w
  = (Some (Ok table), w') ->
  w' = w ++ new ->
  well_formed table
  /\ len table = Z.of_nat (List.length (List.concat (kept_pages new))).
Proof.
  intros Hrun Hnew.
  apply fetch_all_years_loops in Hrun as [r [Hrun Hres]].
  apply fetch_years_trace in Hrun as [segs [Hw [_ Hend]]].
  rewrite Hw in Hnew. apply app_inv_head in Hnew. subst new.
  destruct r as [[all_data|e]|]; [|discriminate Hres|discriminate Hres].
  cbn [years_end] in Hend. destruct Hend as [_ [_ Hdata]]. cbn [app] in Hdata.
  rewrite kept_frames_pages in Hdata.
  assert (Htable : table = DataFrame_of_records
                             (List.concat (kept_pages (List.concat segs)))).
  { rewrite <- result_table_of_pages, <- Hdata.
    destruct all_data; inversion Hres; reflexivity. }
  subst table. split; [apply DataFrame_of_records_well_formed|].
  unfold len. cbn [rows DataFrame_of_records]. rewrite length_map. reflexivity.
Qed.

Lemma fetch_all_years_table_well_formed_witness :
  fetch_all_years (script_api two_years) 3 2023 2024 None None 2 []
  = (Some (Ok two_years_table), two_years_history)
  /\ two_years_history = [] ++ two_years_history
  /\ well_formed two_years_table
  /\ len two_years_table = 3.
Proof.
  split; [vm_compute; reflexivity|]. split; [reflexivity|].
  exact (fetch_all_years_table_well_formed (script_api two_years) None None 2 3
           2023 2024 [] two_years_history two_years_history two_years_table
           ltac:(vm_compute; reflexivity) eq_refl).
Defined.

Lemma range_empty (start stop : Z) : stop <= start -> range start stop = [].
Proof.
  intros H. unfold range. replace (Z.to_nat (stop - start)) with O by lia.
  reflexivity.
Qed.

(** X3.  When [end_year] is below [start_year] the range of years is
    empty: [fetch_all_years] sends no request at all and returns the empty
    table, without any error about the order of its arguments. *)
Theorem fetch_all_years_empty_range (api : World -> Params -> http_outcome)
    (state applicant_type : option string) (batch_size : Z) (fuel : nat)
    (start_year end_year : Z) (w : World) :
  end_year < start_year ->
  fetch_all_years api fuel start_year end_year state applicant_type batch_size w
  = (Some (Ok (DataFrame_of_records [])), w)
  /\ empty (DataFrame_of_records []) = true.
Proof.
  intros H. unfold fetch_all_years. rewrite range_empty by lia.
  split; reflexivity.
Qed.

Lemma fetch_all_years_empty_range_witness :
  2016 < 2024
  /\ fetch_all_years (script_api two_years) 3 2024 2016 (Some "CA") None 1000 []
     = (Some (Ok (DataFrame_of_records [])), [])
  /\ empty (DataFrame_of_records []) = true.
Proof.
  split; [lia|].
  apply (fetch_all_years_empty_range (script_api two_years) (Some "CA") None 1000
           3 2024 2016 []).
  lia.
Defined.

(** ** What [get_summary_stats] does to the table *)

Lemma set_cell_length (cols : list string) (c : string) (v : cell) (row : list cell) :
  List.length (set_cell cols c v row) = List.length row.
Proof.
  revert row. induction cols as [|c' cols IH]; intros [|x row]; cbn; trivial.
  destruct (c' =? c)%string; cbn; [reflexivity | rewrite IH; reflexivity].
Qed.

Lemma field_set_cell_other (cols : list string) (c c2 : string) (v : cell)
    (row : list cell) :
  c2 <> c ->
  field (row_record cols (set_cell cols c v row)) c2 = field (row_record cols row) c2.
Proof.
  intros Hne. unfold field, row_record.
  revert row. induction cols as [|c' cols IH]; intros [|x row]; cbn; trivial.
  destruct (String.eqb_spec c' c) as [->|Hc]; cbn.
  - destruct (String.eqb_spec c c2) as [->|_]; [contradiction | reflexivity].
  - destruct (c' =? c2)%string; [reflexivity | apply IH].
Qed.

Lemma field_set_cell_same (cols : list string) (c : string) (v : cell)
    (row : list cell) :
  field (row_record cols (set_cell cols c v row)) c
  = if dict_has c (row_record cols row) then v else NA.
Proof.
  unfold field, row_record, dict_has.
  revert row. induction cols as [|c' cols IH]; intros [|x row]; cbn; trivial.
  destruct (String.eqb_spec c' c) as [->|Hc]; cbn.
  - rewrite String.eqb_refl. reflexivity.
  - apply String.eqb_neq in Hc. rewrite Hc. apply IH.
Qed.

Lemma set_cell_same (cols : list string) (c : string) (row : list cell) :
  set_cell cols c (field (row_record cols row) c) row = row.
Proof.
  unfold field, row_record.
  revert row. induction cols as [|c' cols IH]; intros [|x row]; cbn; trivial.
  destruct (c' =? c)%string; [reflexivity|]. f_equal. apply IH.
Qed.

Lemma map_combine_map {A B C : Type} (h : A * B -> C) (g : A -> B) (l : list A) :
  map h (combine l (map g l)) = map (fun x => h (x, g x)) l.
Proof. induction l as [|x l IH]; cbn; [reflexivity | rewrite IH; reflexivity]. Qed.

(** Overwriting a column with a function of its cells, row by row. *)
Lemma set_column_map (c : string) (f : cell -> cell) (df : DataFrame) :
  set_column c (map f (column c df)) df
  = {| columns := columns df;
       rows := map (fun row =>
                 set_cell (columns df) c (f (field (row_record (columns df) row) c)) row)
               (rows df) |}.
Proof.
  unfold set_column, column. rewrite map_map, map_combine_map. reflexivity.
Qed.

Lemma column_set_column_other (c c2 : string) (f : cell -> cell) (df : DataFrame) :
  c2 <> c ->
  column c2 (set_column c (map f (column c df)) df) = column c2 df.
Proof.
  intros Hne. rewrite set_column_map. unfold column. cbn [rows columns].
  rewrite map_map. apply map_ext. intros row. apply field_set_cell_other, Hne.
Qed.

Lemma column_set_column_same (c : string) (f : cell -> cell) (df : DataFrame) :
  f NA = NA ->
  column c (set_column c (map f (column c df)) df) = map f (column c df).
Proof.
  intros HNA. rewrite set_column_map. unfold column. cbn [rows columns].
  rewrite !map_map. apply map_ext. intros row. rewrite field_set_cell_same.
  unfold field, dict_has. destruct (dict_get c (row_record (columns df) row));
    [reflexivity | symmetry; exact HNA].
Qed.

Lemma set_column_same (c : string) (df : DataFrame) :
  set_column c (column c df) df = df.
Proof.
  rewrite <- (map_id (column c df)), (set_column_map c (fun v => v)).
  destruct df as [cols rws]. cbn [columns rows]. f_equal.
  rewrite <- (map_id rws) at 2. apply map_ext. intros row. apply set_cell_same.
Qed.

Lemma to_numeric_map (parse_number : string -> option Qc) (s : list cell) :
  to_numeric parse_number s
  = map (fun v => match v with
                  | Str t => match parse_number t with
                             | Some q => Num q
                             | None => NA
                             end
                  | _ => v
                  end) s.
Proof. reflexivity. Qed.

Lemma to_numeric_idempotent (parse_number : string -> option Qc) (s : list cell) :
  to_numeric parse_number (to_numeric parse_number s) = to_numeric parse_number s.
Proof.
  unfold to_numeric. rewrite map_map. apply map_ext. intros [| q | t]; trivial.
  destruct (parse_number t); reflexivity.
Qed.

Section SummaryFrame.

Variable sorted : list cell -> result (list cell).
Variable parse_number : string -> option Qc.

Local Abbreviation coerced := (coerced parse_number).

Lemma coerced_columns (df : DataFrame) : columns (coerced df) = columns df.
Proof. unfold coerced. destruct (mem _ _); reflexivity. Qed.

Lemma coerced_row_lengths (df : DataFrame) :
  map (@List.length cell) (rows (coerced df)) = map (@List.length cell) (rows df).
Proof.
  unfold coerced. destruct (mem _ _); [|reflexivity].
  rewrite to_numeric_map, set_column_map. cbn [rows]. rewrite map_map.
  apply map_ext. intros row. apply set_cell_length.
Qed.

Lemma coerced_other_column (df : DataFrame) (c : string) :
  c <> "total_commitment" -> column c (coerced df) = column c df.
Proof.
  intros Hne. unfold coerced. destruct (mem _ _); [|reflexivity].
  rewrite to_numeric_map. apply column_set_column_other, Hne.
Qed.

Lemma coerced_total_commitment (df : DataFrame) :
  mem "total_commitment" (columns df) = true ->
  column "total_commitment" (coerced df)
  = to_numeric parse_number (column "total_commitment" df).
Proof.
  intros H. unfold coerced. rewrite H, to_numeric_map.
  apply column_set_column_same. reflexivity.
Qed.

Lemma coerced_idempotent (df : DataFrame) : coerced (coerced df) = coerced df.
Proof.
  unfold coerced at 1. rewrite coerced_columns.
  destruct (mem "total_commitment" (columns df)) eqn:H; [|reflexivity].
  rewrite (coerced_total_commitment df H), to_numeric_idempotent.
  rewrite <- (coerced_total_commitment df H). apply set_column_same.
Qed.

Lemma coerced_empty (df : DataFrame) : empty (coerced df) = empty df.
Proof.
  unfold empty. rewrite coerced_columns.
  pose proof (coerced_row_lengths df) as H.
  destruct (rows (coerced df)), (rows df); try discriminate H; reflexivity.
Qed.

(** [get_summary_stats] in one equation: an empty table and a failed sort
    leave the table alone, any other call returns the entries and leaves the
    table coerced. *)
Lemma get_summary_stats_eq (df : DataFrame) :
  get_summary_stats sorted parse_number df
  = if empty df then (Ok [], df)
    else match funding_years_of sorted df with
         | Raise e => (Raise e, df)
         | Ok years =>
             (Ok (category_entries df years ++ commitment_entries parse_number df),
              coerced df)
         end.
Proof.
  unfold get_summary_stats, funding_years_of, commitment_entries.
  destruct (empty df); [reflexivity|].
  destruct (if mem "funding_year" (columns df) then _ else _) as [years|e];
    [|reflexivity].
  fold (category_entries df years).
  destruct (mem "total_commitment" (columns df)) eqn:Htc.
  - pose proof (coerced_total_commitment df Htc) as Hc.
    unfold coerced in *. rewrite Htc in *. rewrite Hc. reflexivity.
  - unfold coerced. rewrite Htc, app_nil_r. reflexivity.
Qed.

(** The table after a call is the one before it, or that one coerced. *)
Lemma get_summary_stats_table (df : DataFrame) :
  snd (get_summary_stats sorted parse_number df) = df
  \/ snd (get_summary_stats sorted parse_number df) = coerced df.
Proof.
  rewrite get_summary_stats_eq.
  destruct (empty df); [left; reflexivity|].
  destruct (funding_years_of sorted df); [right | left]; reflexivity.
Qed.

Lemma len_coerced (df : DataFrame) : len (coerced df) = len df.
Proof.
  unfold len. rewrite <- (length_map (@List.length cell) (rows (coerced df))),
    coerced_row_lengths, length_map. reflexivity.
Qed.

Lemma category_entries_coerced (df : DataFrame) (years : list cell) :
  category_entries (coerced df) years = category_entries df years.
Proof.
  unfold category_entries.
  rewrite len_coerced, coerced_columns, !coerced_other_column by discriminate.
  reflexivity.
Qed.

Lemma funding_years_of_coerced (df : DataFrame) :
  funding_years_of sorted (coerced df) = funding_years_of sorted df.
Proof.
  unfold funding_years_of.
  rewrite coerced_columns, coerced_other_column by discriminate. reflexivity.
Qed.

Lemma commitment_entries_coerced (df : DataFrame) :
  commitment_entries parse_number (coerced df) = commitment_entries parse_number df.
Proof.
  unfold commitment_entries. rewrite coerced_columns.
  destruct (mem "total_commitment" (columns df)) eqn:Htc; [|reflexivity].
  rewrite (coerced_total_commitment df Htc), to_numeric_idempotent. reflexivity.
Qed.

(** X4.  Whatever the table and however the call ends, [get_summary_stats]
    leaves the caller's table with the same columns, the same number of
    rows, each row as long as it was, and every column other than
    [total_commitment] cell for cell as it was; a well-formed table stays
    well formed. *)
Theorem get_summary_stats_keeps_other_columns (df : DataFrame) :
  let df' := snd (get_summary_stats sorted parse_number df) in
  columns df' = columns df
  /\ map (@List.length cell) (rows df') = map (@List.length cell) (rows df)
  /\ (forall c, c <> "total_commitment" -> column c df' = column c df)
  /\ (well_formed df -> well_formed df').
Proof.
  intros df'.
  assert (H : columns df' = columns df
              /\ map (@List.length cell) (rows df') = map (@List.length cell) (rows df)
              /\ forall c, c <> "total_commitment" -> column c df' = column c df).
  { destruct (get_summary_stats_table df) as [E|E]; unfold df'; rewrite E.
    - repeat split; reflexivity.
    - split; [apply coerced_columns|]. split; [apply coerced_row_lengths|].
      intros c Hc. apply coerced_other_column, Hc. }
  destruct H as [Hcols [Hlen Hother]]. repeat split; trivial.
  - rewrite Hcols. apply H.
  - destruct H as [_ Hrows]. rewrite Hcols.
    rewrite Forall_forall in *. intros row' Hrow'.
    assert (Hl : In (List.length row') (map (@List.length cell) (rows df'))).
    { apply in_map, Hrow'. }
    rewrite Hlen in Hl. apply in_map_iff in Hl as [row [Heq Hrow]].
    rewrite <- Heq. apply Hrows, Hrow.
Qed.

(** X5.  A second call of [get_summary_stats] on the table the first call
    has left returns the same statistics, or raises the same exception, and
    leaves that table as it is: the overwrite of [total_commitment] happens
    once. *)
Theorem get_summary_stats_twice (df : DataFrame) :
  get_summary_stats sorted parse_number
    (snd (get_summary_stats sorted parse_number df))
  = get_summary_stats sorted parse_number df.
Proof.
  rewrite (get_summary_stats_eq df).
  destruct (empty df) eqn:Hempty.
  { cbn [snd]. rewrite get_summary_stats_eq, Hempty. reflexivity. }
  destruct (funding_years_of sorted df) as [years|e] eqn:Hy; cbn [snd].
  - rewrite get_summary_stats_eq, coerced_empty, Hempty.
    rewrite funding_years_of_coerced, Hy, category_entries_coerced,
      commitment_entries_coerced, coerced_idempotent.
    reflexivity.
  - rewrite get_summary_stats_eq, Hempty, Hy. reflexivity.
Qed.

(** *** Counts *)











(** *** Total and mean *)


End SummaryFrame.

(** ** The entry point *)

Section MainProperties.

Variable api : World -> Params -> http_outcome.
Variable sorted : list cell -> result (list cell).
Variable parse_number : string -> option Qc.
Variable format_number : Qc -> string.

Local Abbreviation main := (main api sorted parse_number format_number).
Local Abbreviation coerced := (coerced parse_number).

(** The one request [main] sends. *)
Local Abbreviation main_request := (request_params (Some 2024) (Some "CA") None 100 0).

Lemma coerced_of_empty (df : DataFrame) : empty df = true -> coerced df = df.
Proof.
  intros H. unfold coerced, empty in *. destruct df as [cols rws].
  cbn [columns rows] in *.
  destruct rws as [|row rws].
  - destruct (mem _ _); reflexivity.
  - destruct cols; [reflexivity | discriminate H].
Qed.

(** When the statistics go through, the table they leave is the coerced
    one. *)
Lemma get_summary_stats_leaves_coerced (df : DataFrame) (stats : Stats) :
  fst (get_summary_stats sorted parse_number df) = Ok stats ->
  snd (get_summary_stats sorted parse_number df) = coerced df.
Proof.
  rewrite get_summary_stats_eq. destruct (empty df) eqn:E.
  - intros _. symmetry. apply coerced_of_empty, E.
  - destruct (funding_years_of sorted df); [reflexivity | discriminate].
Qed.

(** X10.  [main] sends one request, for the year 2024 and the state CA, at
    most 100 records from offset 0.  When that request fails (the network
    operation raises or the status is 4xx or 5xx) or when the statistics
    raise, [main] raises the same exception and has not touched the file
    system: nothing is written and no directory is made. *)
Theorem main_failure_writes_nothing (environ : list (string * string))
    (w : World) (fs : FileSystem) (e : exn) :
  let out := api w main_request in
  receive out = Raise e
  \/ (exists df, receive out = Ok df
                 /\ fst (get_summary_stats sorted parse_number df) = Raise e) ->
  main environ w fs = (Raise e, w ++ [(main_request, out)], fs)
  /\ dict_get "$where" main_request
     = Some (PStr "funding_year = 2024 AND state = 'CA'").
Proof.
  intros out H. split; [|reflexivity].
  unfold main. rewrite fetch_data_one_request. cbv zeta. fold out.
  destruct H as [H|[df [H Hstats]]]; rewrite H; [reflexivity|].
  destruct (get_summary_stats sorted parse_number df) as [[stats|e'] df'];
    cbn [fst] in Hstats; [discriminate Hstats|].
  inversion Hstats; subst. reflexivity.
Qed.

(** X11.  When the request of [main] is answered by a page of records and
    the statistics go through, [main] ends as its call of [save_data]
    ends.  That call is made on the path
    [os.path.join(RAW_DATA_DIR, 'erate_sample.csv')], with [./data/raw] for
    a variable that is not set, and on the table as the statistics have
    left it: the fetched table with its [total_commitment] column, if any,
    turned into numbers, not the table as it was fetched. *)
Theorem main_saves_coerced_table (environ : list (string * string))
    (w : World) (fs : FileSystem) (df : DataFrame) (stats : Stats) :
  let out := api w main_request in
  let output_path :=
    path_join (getenv environ "RAW_DATA_DIR" "./data/raw") "erate_sample.csv" in
  receive out = Ok df ->
  fst (get_summary_stats sorted parse_number df) = Ok stats ->
  main environ w fs
  = (fst (save_data format_number (coerced df) output_path fs),
     w ++ [(main_request, out)],
     snd (save_data format_number (coerced df) output_path fs)).
Proof.
  intros out output_path Hrecv Hstats.
  pose proof (get_summary_stats_leaves_coerced df stats Hstats) as Hdf.
  unfold main. rewrite fetch_data_one_request. cbv zeta. fold out.
  rewrite Hrecv.
  destruct (get_summary_stats sorted parse_number df) as [[stats'|e] df'];
    cbn [fst snd] in *; [|discriminate Hstats].
  subst df'. fold output_path.
  destruct (save_data format_number (coerced df) output_path fs); reflexivity.
Qed.

(** X12.  With [RAW_DATA_DIR] set to the empty string the path [main] saves
    under is the bare [erate_sample.csv]: after a fetch and statistics that
    went through, [main] raises the [FileNotFoundError] of the directory
    step and leaves the file system as it was. *)
Theorem main_empty_output_dir (environ : list (string * string))
    (w : World) (fs : FileSystem) (df : DataFrame) (stats : Stats) :
  let out := api w main_request in
  dict_get "RAW_DATA_DIR" environ = Some "" ->
  receive out = Ok df ->
  fst (get_summary_stats sorted parse_number df) = Ok stats ->
  main environ w fs
  = (Raise (OSError (FileNotFoundError "")), w ++ [(main_request, out)], fs).
Proof.
  intros out Henv Hrecv Hstats.
  unfold main. rewrite fetch_data_one_request. cbv zeta. fold out.
  rewrite Hrecv.
  destruct (get_summary_stats sorted parse_number df) as [[stats'|e] df'];
    cbn [fst] in Hstats; [|discriminate Hstats].
  unfold getenv. rewrite Henv.
  change (path_join "" "erate_sample.csv") with "erate_sample.csv".
  unfold save_data. rewrite (dirname_no_sep "erate_sample.csv" eq_refl).
  reflexivity.
Qed.

End MainProperties.

(** ** The opportunity analysis *)

Lemma this_plus (x y : Qc) : (this (x + y)%Qc == this x + this y)%Q.
Proof. apply Qred_correct. Qed.

Lemma this_mult (x y : Qc) : (this (x * y)%Qc == this x * this y)%Q.
Proof. apply Qred_correct. Qed.

Lemma this_opp (x : Qc) : (this (- x)%Qc == - this x)%Q.
Proof. apply Qred_correct. Qed.

Lemma this_minus (x y : Qc) : (this (x - y)%Qc == this x - this y)%Q.
Proof. unfold Qcminus. rewrite this_plus, this_opp. reflexivity. Qed.

Lemma this_inv (x : Qc) : (this (/ x)%Qc == / this x)%Q.
Proof. apply Qred_correct. Qed.

Lemma this_div (x y : Qc) : (this (x / y)%Qc == this x / this y)%Q.
Proof. unfold Qcdiv. rewrite this_mult, this_inv. reflexivity. Qed.

Lemma this_Q2Qc (q : Q) : (this (Q2Qc q) == q)%Q.
Proof. apply Qred_correct. Qed.

(** Orders on [Qc] read as orders on the rationals they stand for. *)
Ltac to_Q :=
  unfold Qcle, Qclt in *;
  repeat match goal with
  | H : context [this (_ + _)%Qc] |- _ => rewrite this_plus in H
  | H : context [this (_ - _)%Qc] |- _ => rewrite this_minus in H
  | H : context [this (_ * _)%Qc] |- _ => rewrite this_mult in H
  | H : context [this (_ / _)%Qc] |- _ => rewrite this_div in H
  | H : context [this (- _)%Qc] |- _ => rewrite this_opp in H
  | H : context [this (Q2Qc _)] |- _ => rewrite this_Q2Qc in H
  | |- context [this (_ + _)%Qc] => rewrite this_plus
  | |- context [this (_ - _)%Qc] => rewrite this_minus
  | |- context [this (_ * _)%Qc] => rewrite this_mult
  | |- context [this (_ / _)%Qc] => rewrite this_div
  | |- context [this (- _)%Qc] => rewrite this_opp
  | |- context [this (Q2Qc _)] => rewrite this_Q2Qc
  end.

Lemma Qc_eq_bool_false (a b : Qc) : Qc_eq_bool a b = false -> a <> b.
Proof.
  unfold Qc_eq_bool. destruct (Qc_eq_dec a b); [discriminate | trivial].
Qed.

Lemma Qc_eq_bool_true (a b : Qc) : Qc_eq_bool a b = true -> a = b.
Proof. apply Qc_eq_bool_correct. Qed.

Lemma at_label_fresh (l : Z) (v : option Qc) (n a : nat) :
  at_label l (map (fun i => (Z.of_nat i, v)) (seq a n))
  = if (Z.of_nat a <=? l) && (l <? Z.of_nat (a + n)) then v else None.
Proof.
  revert a. induction n as [|n IH]; intros a.
  - cbn [seq map at_label].
    destruct (Z.leb_spec (Z.of_nat a) l), (Z.ltb_spec l (Z.of_nat (a + 0)));
      cbn [andb]; try reflexivity; lia.
  - cbn [seq map at_label]. rewrite IH.
    destruct (Z.eqb_spec (Z.of_nat a) l), (Z.leb_spec (Z.of_nat a) l),
      (Z.leb_spec (Z.of_nat (S a)) l), (Z.ltb_spec l (Z.of_nat (a + S n))),
      (Z.ltb_spec l (Z.of_nat (S a + n)));
      cbn [andb]; try reflexivity; lia.
Qed.

Lemma same_labels_true (a b : list Z) : same_labels a b = true -> a = b.
Proof. unfold same_labels. destruct (list_eq_dec Z.eq_dec a b); [trivial | discriminate]. Qed.

(** X15.  When all the values of a series are one same number,
    [normalize_score] returns 50 for a fresh index 0, 1, 2, ..., not for
    the index of the series.  Assigned as a column of the frame the series
    came from, a row gets 50 only if its own label is one of 0, ..., n-1
    where n is the number of rows, and NaN otherwise. *)
Theorem normalize_score_constant (rescale : Qc -> Qc -> Qc -> option Qc)
    (series : Series) (v : Qc) :
  series_min series = Some v ->
  series_max series = Some v ->
  normalize_score rescale series
  = map (fun i => (Z.of_nat i, Some (Q2Qc 50))) (seq 0 (List.length series))
  /\ forall i l x,
       nth_error series i = Some (l, x) ->
       nth_error (assigned (map fst series) (normalize_score rescale series)) i
       = Some (if (0 <=? l) && (l <? Z.of_nat (List.length series))
               then Some (Q2Qc 50) else None).
Proof.
  intros Hlo Hhi.
  assert (Hnorm : normalize_score rescale series
            = map (fun i => (Z.of_nat i, Some (Q2Qc 50))) (seq 0 (List.length series))).
  { unfold normalize_score. rewrite Hhi, Hlo.
    destruct (Qc_eq_bool v v) eqn:E; [reflexivity|].
    apply Qc_eq_bool_false in E. congruence. }
  split; [exact Hnorm|].
  intros i l x Hi. rewrite Hnorm. unfold assigned.
  assert (Hlen : (i < List.length series)%nat).
  { apply nth_error_Some. rewrite Hi. discriminate. }
  destruct (same_labels _ _) eqn:E.
  - apply same_labels_true in E. rewrite map_map in E. cbn [fst] in E.
    assert (Hl : l = Z.of_nat i).
    { assert (H : nth_error (map fst series) i = Some l)
        by (rewrite nth_error_map, Hi; reflexivity).
      rewrite E, nth_error_map, nth_error_seq in H.
      destruct (Nat.ltb_spec i (List.length series)) as [_|Hge]; [|lia].
      cbn in H. congruence. }
    rewrite map_map. cbn [snd]. rewrite nth_error_map, nth_error_seq.
    destruct (Nat.ltb_spec i (List.length series)) as [_|Hge]; [|lia].
    cbn [option_map]. subst l.
    replace (0 <=? Z.of_nat i) with true by (symmetry; apply Z.leb_le; lia).
    replace (Z.of_nat i <? Z.of_nat (List.length series)) with true
      by (symmetry; apply Z.ltb_lt; lia).
    reflexivity.
  - rewrite nth_error_map, nth_error_map, Hi. cbn [option_map fst].
    rewrite at_label_fresh. reflexivity.
Qed.

(** *** Medians *)

Lemma insert_Qc_perm (x : Qc) (l : list Qc) : Permutation (insert_Qc x l) (x :: l).
Proof.
  induction l as [|y l IH]; cbn [insert_Qc]; [reflexivity|].
  destruct (Qclt_le_dec y x); [|reflexivity].
  rewrite IH. apply perm_swap.
Qed.

Lemma sort_Qc_perm (l : list Qc) : Permutation (sort_Qc l) l.
Proof.
  induction l as [|x l IH]; cbn; [reflexivity|].
  rewrite insert_Qc_perm. constructor. exact IH.
Qed.

Lemma insert_Qc_sorted (x : Qc) (l : list Qc) :
  StronglySorted Qcle l -> StronglySorted Qcle (insert_Qc x l).
Proof.
  induction 1 as [|y l Hs IH Hall]; cbn [insert_Qc].
  - constructor; constructor.
  - destruct (Qclt_le_dec y x) as [Hlt|Hle].
    + constructor; [exact IH|].
      apply (Permutation_Forall (Permutation_sym (insert_Qc_perm x l))).
      constructor; [apply Qclt_le_weak, Hlt | exact Hall].
    + constructor; [constructor; assumption|].
      constructor; [exact Hle|].
      eapply Forall_impl; [|exact Hall]. intros z Hz. eapply Qcle_trans; eassumption.
Qed.

Lemma sort_Qc_sorted (l : list Qc) : StronglySorted Qcle (sort_Qc l).
Proof.
  induction l as [|x l IH]; cbn; [constructor | apply insert_Qc_sorted, IH].
Qed.

Lemma sorted_next (xs : list Qc) (i : nat) (a b : Qc) :
  StronglySorted Qcle xs ->
  nth_error xs i = Some a -> nth_error xs (S i) = Some b -> (a <= b)%Qc.
Proof.
  intros Hs. revert i. induction Hs as [|x xs Hs IH Hall]; intros i Ha Hb.
  - destruct i; discriminate.
  - destruct i as [|i].
    + cbn in Ha. inversion Ha; subst x.
      change (nth_error xs 0 = Some b) in Hb. apply nth_error_In in Hb.
      rewrite Forall_forall in Hall. apply Hall, Hb.
    + apply (IH i Ha Hb).
Qed.

Lemma exceeds_sorted (m : Qc) (xs : list Qc) :
  StronglySorted Qcle xs ->
  forall k a, nth_error xs k = Some a -> (a <= m)%Qc ->
  (List.length (filter (exceeds m) xs) + (k + 1) <= List.length xs)%nat.
Proof.
  induction 1 as [|x xs Hs IH Hall]; intros k a Hk Ha.
  - destruct k; discriminate.
  - assert (Hx : exceeds m x = false).
    { unfold exceeds. destruct (Qclt_le_dec m x) as [Hlt|_]; [|reflexivity].
      exfalso. apply (Qclt_not_le _ _ Hlt). eapply Qcle_trans; [|exact Ha].
      destruct k as [|k]; cbn in Hk.
      - inversion Hk. apply Qcle_refl.
      - apply nth_error_In in Hk. rewrite Forall_forall in Hall. apply Hall, Hk. }
    cbn [filter]. rewrite Hx. cbn [List.length].
    destruct k as [|k]; cbn in Hk.
    + pose proof (filter_length_le (exceeds m) xs). lia.
    + pose proof (IH k a Hk Ha). lia.
Qed.

Lemma half_lt (n : nat) : (0 < n)%nat -> (n / 2 < n)%nat.
Proof. intros H. apply Nat.div_lt; lia. Qed.

(** At most half of the values of a series are above its median. *)
Lemma exceeds_median (s : Series) (m : Qc) :
  median s = Some m ->
  (2 * List.length (filter (exceeds m) (present s)) <= List.length (present s))%nat.
Proof.
  unfold median. cbv zeta. set (xs := sort_Qc (present s)).
  pose proof (sort_Qc_sorted (present s)) as Hs. fold xs in Hs.
  pose proof (sort_Qc_perm (present s)) as Hp. fold xs in Hp.
  rewrite <- (Permutation_length Hp).
  assert (Hf : Permutation (filter (exceeds m) xs) (filter (exceeds m) (present s))).
  { clear Hs. induction Hp; cbn [filter].
    - constructor.
    - destruct (exceeds m x); [constructor|]; assumption.
    - destruct (exceeds m x), (exceeds m y); try reflexivity. apply perm_swap.
    - etransitivity; eassumption. }
  rewrite <- (Permutation_length Hf). clear Hf Hp.
  destruct (List.length xs) as [|n'] eqn:En; [discriminate|].
  cbv beta iota. rewrite <- En.
  assert (Hpos : (0 < List.length xs)%nat) by lia. clear En n'.
  set (n := List.length xs) in *.
  destruct (Nat.even n) eqn:Ev; intros H.
  - apply Nat.even_spec in Ev as [j Hj].
    assert (Hdiv : (n / 2 = j)%nat)
      by (rewrite Hj, Nat.mul_comm; apply Nat.div_mul; lia).
    rewrite Hdiv in H. assert (Hj1 : (1 <= j)%nat) by lia.
    assert (Ha : nth_error xs (j - 1) = Some (nth (j - 1) xs (Q2Qc 0)))
      by (apply nth_error_nth'; fold n; lia).
    assert (Hb : nth_error xs (S (j - 1)) = Some (nth j xs (Q2Qc 0))).
    { replace (S (j - 1)) with j by lia. apply nth_error_nth'. fold n. lia. }
    pose proof (sorted_next xs _ _ _ Hs Ha Hb) as Hab.
    assert (Hle : (nth (j - 1) xs (Q2Qc 0) <= m)%Qc).
    { revert H Hab. generalize (nth (j - 1) xs (Q2Qc 0)), (nth j xs (Q2Qc 0)).
      intros a b H Hab. injection H as <-. to_Q. apply Qle_shift_div_l; [reflexivity | lra]. }
    pose proof (exceeds_sorted m xs Hs _ _ Ha Hle) as Hc. fold n in Hc. lia.
  - assert (Hodd : Nat.odd n = true) by (rewrite <- Nat.negb_even, Ev; reflexivity).
    apply Nat.odd_spec in Hodd as [j Hj].
    assert (Hdiv : (n / 2 = j)%nat).
    { rewrite Hj, Nat.add_comm, Nat.mul_comm, Nat.div_add by lia. reflexivity. }
    rewrite Hdiv in H.
    assert (Ha : nth_error xs j = Some (nth j xs (Q2Qc 0)))
      by (apply nth_error_nth'; fold n; lia).
    assert (Hle : (nth j xs (Q2Qc 0) <= m)%Qc).
    { injection H as <-. apply Qcle_refl. }
    pose proof (exceeds_sorted m xs Hs _ _ Ha Hle) as Hc. fold n in Hc. lia.
Qed.

Lemma above_count {A : Type} (lab : A -> Z) (f : A -> option Qc) (m : Qc) (df : list A) :
  List.length (filter (fun r => above (Some m) (f r)) df)
  = List.length (filter (exceeds m) (present (series_of lab f df))).
Proof.
  induction df as [|r df IH]; [reflexivity|].
  cbn [filter series_of map present flat_map snd]. fold (series_of lab f df).
  fold (present (series_of lab f df)).
  destruct (f r) as [x|]; cbn [above app].
  - cbn [filter]. unfold exceeds at 1. destruct (Qclt_le_dec m x); cbn [List.length]; lia.
  - exact IH.
Qed.

Lemma present_length (s : Series) : (List.length (present s) <= List.length s)%nat.
Proof.
  induction s as [|[l v] s IH]; [cbn; lia|].
  change (present ((l, v) :: s))
    with ((match v with Some q => [q] | None => [] end) ++ present s).
  rewrite length_app. destruct v; cbn [List.length]; lia.
Qed.

Lemma above_half {A : Type} (lab : A -> Z) (f : A -> option Qc) (df : list A) :
  (2 * List.length (filter (fun r => above (median (series_of lab f df)) (f r)) df)
   <= List.length df)%nat.
Proof.
  destruct (median (series_of lab f df)) as [m|] eqn:Hm.
  - rewrite (above_count lab). pose proof (exceeds_median _ _ Hm) as H.
    pose proof (present_length (series_of lab f df)) as H'.
    unfold series_of in H' at 2. rewrite length_map in H'. lia.
  - replace (filter (fun r => above None (f r)) df) with (@nil A); [cbn; lia|].
    clear Hm. induction df as [|r df IH]; [reflexivity|].
    cbn [filter]. unfold above at 1. destruct (f r); exact IH.
Qed.

Lemma filter_and_length {A : Type} (p q : A -> bool) (l : list A) :
  (List.length (filter (fun x => p x && q x) l) <= List.length (filter p l))%nat.
Proof.
  induction l as [|x l IH]; cbn; [lia|].
  destruct (p x), (q x); cbn; lia.
Qed.

(** X17.  The high-opportunity quadrant holds at most half of the rows of
    the frame, whatever the library counts and revenues are; each of its
    rows is a row of the frame with a library count and a revenue, both
    above the median of their column. *)
Theorem high_opportunity_at_most_half (opportunity_df : list opportunity_row) :
  (2 * List.length (high_opportunity opportunity_df) <= List.length opportunity_df)%nat
  /\ forall r, In r (high_opportunity opportunity_df) ->
       In r opportunity_df
       /\ exists libs revenue median_libs median_revenue,
            library_count (of_state r) = Some libs
            /\ total_revenue_k (of_state r) = Some revenue
            /\ median (series_of (fun r => label (of_state r))
                                 (fun r => library_count (of_state r)) opportunity_df)
               = Some median_libs
            /\ median (series_of (fun r => label (of_state r))
                                 (fun r => total_revenue_k (of_state r)) opportunity_df)
               = Some median_revenue
            /\ (median_libs < libs)%Qc /\ (median_revenue < revenue)%Qc.
Proof.
  unfold high_opportunity. split.
  - etransitivity; [apply Nat.mul_le_mono_l, filter_and_length|].
    apply (above_half (fun r => label (of_state r)) (fun r => library_count (of_state r))).
  - intros r Hr. apply filter_In in Hr as [Hin Hr]. split; [exact Hin|].
    apply andb_true_iff in Hr as [H1 H2]. unfold above in H1, H2.
    destruct (library_count (of_state r)) as [libs|]; [|discriminate].
    destruct (total_revenue_k (of_state r)) as [revenue|]; [|discriminate].
    destruct (median _) as [ml|]; [|discriminate].
    destruct (median _) as [mr|]; [|discriminate].
    exists libs, revenue, ml, mr.
    destruct (Qclt_le_dec ml libs); [|discriminate].
    destruct (Qclt_le_dec mr revenue); [|discriminate].
    repeat split; assumption.
Qed.

(** ** Collections that run to their end *)

Lemma script_of_length (parts : list year_pages) :
  List.length (script_of parts) = List.length (flat_map pages_of parts).
Proof.
  unfold script_of. induction parts as [|part parts IH]; [reflexivity|].
  cbn [flat_map]. rewrite !length_app, length_map, IH. reflexivity.
Qed.

(** X18.  Against an API that holds, for each year of the range, its full
    pages followed by one page that is not full, [fetch_all_years] with
    more fuel than any year has full pages does return: it has sent one
    request for each page the API holds, none more, and its table is the
    frame of the records of the pages whose frame is not empty, in the
    order of the years and of the pages. *)
Theorem fetch_all_years_total (state applicant_type : option string)
    (batch_size : Z) (fuel : nat) (start_year end_year : Z)
    (parts : list year_pages) :
  List.length parts = List.length (range start_year (end_year + 1)) ->
  Forall (well_paged batch_size) parts ->
  Forall (fun part => (List.length (fst part) < fuel)%nat) parts ->
  exists new,
    fetch_all_years (script_api (script_of parts)) fuel start_year end_year
      state applicant_type batch_size []
    = (Some (Ok (DataFrame_of_records
                   (List.concat (nonempty_pages (flat_map pages_of parts))))),
       new)
    /\ List.length new = List.length (flat_map pages_of parts).
Proof.
  intros Hlen Hparts Hfuel. unfold fetch_all_years.
  destruct (fetch_years_script state applicant_type batch_size fuel [] parts
              (range start_year (end_year + 1)) [] [] [] Hlen eq_refl Hparts Hfuel)
    as [seg [Hrun Hseg]].
  cbn [app] in Hrun. rewrite app_nil_r in Hrun. rewrite Hrun.
  exists seg. split; [|rewrite Hseg; apply script_of_length].
  rewrite <- result_table_of_pages.
  destruct (map DataFrame_of_records (nonempty_pages (flat_map pages_of parts)));
    reflexivity.
Qed.

(** 2023 has a full page of two records and a page of one, 2024 a single
    empty page. *)
Lemma fetch_all_years_total_witness :
  exists new,
    fetch_all_years (script_api two_years) 3 2023 2024 None None 2 []
    = (Some (Ok two_years_table), new)
    /\ List.length new = 3%nat.
Proof.
  destruct (fetch_all_years_total None None 2 3 2023 2024
              [([[school "School A" "2023"; school "School B" "2023"]],
                [school "School C" "2023"]);
               ([], [])])
    as [new [Hrun Hnew]].
  - reflexivity.
  - repeat constructor.
  - repeat constructor.
  - exists new. split; [exact Hrun | exact Hnew].
Defined.

(** ** Witnesses on the tables of the test suite *)



(** ** Witnesses for [main] *)

(** The request times out. *)
Lemma main_failure_writes_nothing_witness :
  main (script_api [Failed Timeout]) sorted_uniform parse_integer (fun _ => "")
       [] [] (mkFileSystem [] [])
  = (Raise (RequestException Timeout),
     [(request_params (Some 2024) (Some "CA") None 100 0, Failed Timeout)],
     mkFileSystem [] []).
Proof.
  apply (main_failure_writes_nothing (script_api [Failed Timeout]) sorted_uniform
           parse_integer (fun _ => "") [] [] (mkFileSystem [] [])
           (RequestException Timeout)).
  left. reflexivity.
Defined.

(** The API answers with the record of the test suite and [RAW_DATA_DIR]
    is not set: the commitment saved is the number 50000, the one fetched
    was the string. *)
Lemma main_saves_coerced_table_witness :
  main (script_api [page [test_record]]) sorted_uniform parse_integer (fun _ => "")
       [] [] (mkFileSystem [] [])
  = (fst (save_data (fun _ => "")
            (coerced parse_integer (DataFrame_of_records [test_record]))
            "./data/raw/erate_sample.csv" (mkFileSystem [] [])),
     [(request_params (Some 2024) (Some "CA") None 100 0, page [test_record])],
     snd (save_data (fun _ => "")
            (coerced parse_integer (DataFrame_of_records [test_record]))
            "./data/raw/erate_sample.csv" (mkFileSystem [] [])))
  /\ column "total_commitment"
       (coerced parse_integer (DataFrame_of_records [test_record]))
     = [Num (Q2Qc 50000)]
  /\ column "total_commitment" (DataFrame_of_records [test_record])
     = [Str "50000"].
Proof.
  split; [|split; reflexivity].
  apply (main_saves_coerced_table (script_api [page [test_record]]) sorted_uniform
           parse_integer (fun _ => "") [] [] (mkFileSystem [] [])
           (DataFrame_of_records [test_record]) _ eq_refl eq_refl).
Defined.

(** The same answer with [RAW_DATA_DIR] set to the empty string. *)
Lemma main_empty_output_dir_witness :
  main (script_api [page [test_record]]) sorted_uniform parse_integer (fun _ => "")
       [("RAW_DATA_DIR", "")] [] (mkFileSystem [] [])
  = (Raise (OSError (FileNotFoundError "")),
     [(request_params (Some 2024) (Some "CA") None 100 0, page [test_record])],
     mkFileSystem [] []).
Proof.
  apply (main_empty_output_dir (script_api [page [test_record]]) sorted_uniform
           parse_integer (fun _ => "") [("RAW_DATA_DIR", "")] [] (mkFileSystem [] [])
           (DataFrame_of_records [test_record]) _ eq_refl eq_refl eq_refl).
Defined.

(** ** Witnesses for [normalize_score] *)

(** Two rows labelled 1 and 3 with the same revenue: the row labelled 1
    gets 50, the row labelled 3 gets NaN. *)
Lemma normalize_score_constant_witness :
  normalize_score (fun _ _ _ => None) equal_revenues
  = [(0, Some (Q2Qc 50)); (1, Some (Q2Qc 50))]
  /\ nth_error (assigned [1; 3] (normalize_score (fun _ _ _ => None) equal_revenues)) 0
     = Some (Some (Q2Qc 50))
  /\ nth_error (assigned [1; 3] (normalize_score (fun _ _ _ => None) equal_revenues)) 1
     = Some None.
Proof.
  destruct (normalize_score_constant (fun _ _ _ => None) equal_revenues (Q2Qc 10)
              eq_refl eq_refl)
    as [Hnorm Hrows].
  split; [exact Hnorm|]. split.
  - exact (Hrows 0%nat 1 (Some (Q2Qc 10)) eq_refl).
  - exact (Hrows 1%nat 3 (Some (Q2Qc 10)) eq_refl).
Defined.
